(** * toonapilib.helpers: the Switch / SmartPlug / Light device layer

    A shallow embedding of [toonapilib/helpers.py].  Python values are an
    inductive type of JSON documents, a method of a device object is a
    computation in a state-and-exception monad over the object's private
    fields and the world it talks to (the Toon session, the HTTP service
    and the logger), and every call on a collaborator is recorded in a
    chronological trace. *)

From Stdlib Require Import ZArith List String Ascii Bool Lia DecimalString.
From Stdlib Require Import Permutation.
Import ListNotations.
Local Open Scope string_scope.
Local Open Scope list_scope.
Set Warnings "-register-all".

(** ** Python values *)

(** What [json.loads] produces, floating point numbers left out: [None],
    booleans, integers, strings, lists and insertion-ordered dicts with
    string keys. *)
Inductive value : Type :=
| VNone
| VBool (b : bool)
| VInt (n : Z)
| VStr (s : string)
| VList (items : list value)
| VDict (entries : list (string * value)).

Definition dict := list (string * value).

Inductive exn : Type :=
| AttributeError
| TypeError
| ValueError
| RequestException
| JSONDecodeError.

Inductive result (A : Type) : Type :=
| Ok (a : A)
| Raise (e : exn).
Arguments Ok {A} a.
Arguments Raise {A} e.

Definition is_ok {A} (r : result A) : bool :=
  match r with Ok _ => true | Raise _ => false end.

(** [bool(v)]: the truth value Python gives to [v] in [if v], [not v]. *)
Definition truthy (v : value) : bool :=
  match v with
  | VNone => false
  | VBool b => b
  | VInt n => negb (n =? 0)%Z
  | VStr s => match s with EmptyString => false | String _ _ => true end
  | VList items => match items with [] => false | _ :: _ => true end
  | VDict entries => match entries with [] => false | _ :: _ => true end
  end.

(** [not v] *)
Definition py_not (v : value) : value := VBool (negb (truthy v)).

(** [d.get(k)] on a dict: the value of the first entry under [k], [None]
    when there is none. *)
Fixpoint dict_get (k : string) (d : dict) : value :=
  match d with
  | [] => VNone
  | (k', v) :: rest => if String.eqb k' k then v else dict_get k rest
  end.

(** [d[k] = v]: an existing key keeps its place, a new one goes last. *)
Fixpoint dict_set (k : string) (v : value) (d : dict) : dict :=
  match d with
  | [] => [(k, v)]
  | (k', v') :: rest =>
      if String.eqb k' k then (k', v) :: rest
      else (k', v') :: dict_set k v rest
  end.

(** [x.get(k)]: only a dict has the method. *)
Definition py_get (x : value) (k : string) : result value :=
  match x with
  | VDict d => Ok (dict_get k d)
  | _ => Raise AttributeError
  end.

(** [x[k] = v] with a string key [k]: a dict is updated, a list refuses a
    string index and the other values support no item assignment. *)
Definition py_setitem (x : value) (k : string) (v : value) : result value :=
  match x with
  | VDict d => Ok (VDict (dict_set k v d))
  | _ => Raise TypeError
  end.

(** [iter(x)], as a [for] clause runs through it: the items of a list,
    the keys of a dict, the characters of a string. *)
Definition py_iter (x : value) : result (list value) :=
  match x with
  | VList items => Ok items
  | VDict entries => Ok (map (fun e => VStr (fst e)) entries)
  | VStr s => Ok (map (fun c => VStr (String c EmptyString)) (list_ascii_of_string s))
  | _ => Raise TypeError
  end.

(** [v == s] for a string [s]: only an equal string compares equal. *)
Definition py_eq_str (v : value) (s : string) : bool :=
  match v with
  | VStr s' => String.eqb s' s
  | _ => false
  end.

(** [v == 1]; Python's [True] is the integer one. *)
Definition py_eq_one (v : value) : bool :=
  match v with
  | VInt n => (n =? 1)%Z
  | VBool b => b
  | _ => false
  end.

(** The two builtins whose full definition is the interpreter's: the text
    of a list or dict inside a formatted string, and the parsing of a
    string by [int]. *)
Class Builtins : Type := {
  repr_container : value -> string;
  int_of_str : string -> result Z
}.

(** [int(v)] *)
Definition py_int `{Builtins} (v : value) : result Z :=
  match v with
  | VInt n => Ok n
  | VBool b => Ok (if b then 1 else 0)%Z
  | VStr s => int_of_str s
  | _ => Raise TypeError
  end.

(** The text [str.format] puts in place of [{}] for [v]: [str(v)]. *)
Definition py_str `{Builtins} (v : value) : string :=
  match v with
  | VNone => "None"
  | VBool true => "True"
  | VBool false => "False"
  | VInt n => NilZero.string_of_int (Z.to_int n)
  | VStr s => s
  | _ => repr_container v
  end.

(** ** The collaborators *)

Definition headers := list (string * string).

Record http_response : Type := mkResponse {
  status_code : Z;
  content : string
}.

(** Modelled from the spec: the Toon session of [toonapilib.py], which is
    not part of the sources; it supplies [status] (the cached snapshot),
    [_api_url], [_headers] and [_clear_cache()]. *)
Module Session.
Record Toon : Type := mkToon {
  status : value;
  _api_url : string;
  _headers : headers
}.
End Session.

(** Every call that leaves the device object, in the order it happens.
    [StatusRead name config] is the read of [self.toon.status] made by
    [_get_value(name, config)]; [LogDebug fmt arg] is
    [logger.debug(fmt.format(arg))]; [ClearCache] is
    [self.toon._clear_cache()]. *)
Inductive event : Type :=
| StatusRead (name : string) (config : bool)
| HttpGet (url : string) (hdrs : headers)
| HttpPut (url : string) (data : value) (hdrs : headers)
| LogWarning (msg : string)
| LogDebug (fmt : string) (arg : string)
| ClearCache.

(** The world a device lives in: the session it refers to, what the
    service answers to [requests.get(url, headers=h).json()] and to
    [requests.put(url, data=json.dumps(data), headers=h)], and the calls
    made so far.  The body of a PUT is kept as the document that
    [json.dumps] serialises. *)
Record world : Type := mkWorld {
  toon : Session.Toon;
  requests_get_json : string -> headers -> result value;
  requests_put : string -> value -> headers -> result http_response;
  trace : list event
}.

Definition log (e : event) (w : world) : world :=
  mkWorld (toon w) (requests_get_json w) (requests_put w) (trace w ++ [e]).

(** Modelled from the spec: the session replaces its snapshot wholesale
    (a re-fetch after the cache was invalidated), an act of the session
    of [toonapilib.py], not of a device. *)
Definition replace_snapshot (snapshot : value) (w : world) : world :=
  mkWorld (Session.mkToon snapshot (Session._api_url (toon w)) (Session._headers (toon w)))
          (requests_get_json w) (requests_put w) (trace w).

(** ** Methods as computations *)

(** A method of an object with private fields [O]: it runs in a state
    made of the object and the world, and returns a value or raises; the
    state a raise leaves behind is kept, as Python keeps it. *)
Definition M (O A : Type) : Type := O * world -> result A * (O * world).

Definition ret {O A} (a : A) : M O A := fun st => (Ok a, st).

Definition raise {O A} (e : exn) : M O A := fun st => (Raise e, st).

Definition bind {O A B} (m : M O A) (k : A -> M O B) : M O B :=
  fun st =>
    match m st with
    | (Ok a, st') => k a st'
    | (Raise e, st') => (Raise e, st')
    end.

Declare Scope py_scope.
Delimit Scope py_scope with py.
Notation "x <- m ;; k" := (bind m (fun x => k))
  (at level 61, m at next level, right associativity) : py_scope.
Notation "m ;; k" := (bind m (fun _ => k))
  (at level 61, right associativity) : py_scope.
Local Open Scope py_scope.

Definition pure {O A} (r : result A) : M O A := fun st => (r, st).

Definition get_self {O} : M O O := fun st => (Ok (fst st), st).

Definition put_self {O} (o : O) : M O unit := fun st => (Ok tt, (o, snd st)).

Definition get_toon {O} : M O Session.Toon := fun st => (Ok (toon (snd st)), st).

Definition emit {O} (e : event) : M O unit :=
  fun st => (Ok tt, (fst st, log e (snd st))).

(** What the caller sees of a run. *)
Definition returned {O A} (m : M O A) (st : O * world) : result A := fst (m st).
Definition self_after {O A} (m : M O A) (st : O * world) : O := fst (snd (m st)).
Definition world_after {O A} (m : M O A) (st : O * world) : world := snd (snd (m st)).

(** The calls a run adds to the trace. *)
Definition emitted {O A} (m : M O A) (st : O * world) : list event :=
  skipn (List.length (trace (snd st))) (trace (world_after m st)).

(** [requests.get(url, headers=hdrs).json()] *)
Definition http_get_json {O} (url : string) (hdrs : headers) : M O value :=
  fun st =>
    let w := log (HttpGet url hdrs) (snd st) in
    (requests_get_json w url hdrs, (fst st, w)).

(** [requests.put(url, data=json.dumps(data), headers=hdrs)] *)
Definition http_put {O} (url : string) (data : value) (hdrs : headers)
  : M O http_response :=
  fun st =>
    let w := log (HttpPut url data hdrs) (snd st) in
    (requests_put w url data hdrs, (fst st, w)).

(** [self.toon.status], read on behalf of [_get_value(name, config)]. *)
Definition toon_status {O} (name : string) (config : bool) : M O value :=
  fun st =>
    (Ok (Session.status (toon (snd st))), (fst st, log (StatusRead name config) (snd st))).

(** ** class Switch *)

Module Switch.

Record t : Type := mk {
  _name : string;
  _device_type : value;
  _zwave_index : value;
  _zwave_uuid : value;
  _device_uuid : value
}.

(** [Switch(toon_instance, name)]; the session is the one of the world. *)
Definition __init__ (name : string) : t := mk name VNone VNone VNone VNone.

Definition set_device_type (v : value) (self : t) : t :=
  mk (_name self) v (_zwave_index self) (_zwave_uuid self) (_device_uuid self).
Definition set_zwave_index (v : value) (self : t) : t :=
  mk (_name self) (_device_type self) v (_zwave_uuid self) (_device_uuid self).
Definition set_zwave_uuid (v : value) (self : t) : t :=
  mk (_name self) (_device_type self) (_zwave_index self) v (_device_uuid self).
Definition set_device_uuid (v : value) (self : t) : t :=
  mk (_name self) (_device_type self) (_zwave_index self) (_zwave_uuid self) v.

Definition name : M t value :=
  self <- get_self ;; ret (VStr (_name self)).

(** [next((item.get(name) for item in items
          if item.get('name') == self.name), None)]:
    the generator stops at the first item it yields, and an item that
    is no dict raises before any later one is looked at. *)
Fixpoint next_matching (self_name name : string) (items : list value)
  : result value :=
  match items with
  | [] => Ok VNone
  | item :: rest =>
      match py_get item "name" with
      | Raise e => Raise e
      | Ok n =>
          if py_eq_str n self_name then py_get item name
          else next_matching self_name name rest
      end
  end.

Definition _get_value (name : string) (config : bool) : M t value :=
  let key := if config then "deviceConfigInfo" else "deviceStatusInfo" in
  self <- get_self ;;
  snapshot <- toon_status name config ;;
  info <- pure (py_get snapshot key) ;;
  devices <- pure (py_get info "device") ;;
  items <- pure (py_iter devices) ;;
  pure (next_matching (_name self) name items).

Definition device_uuid : M t value :=
  self <- get_self ;;
  (if negb (truthy (_device_uuid self)) then
     v <- _get_value "devUUID" false ;;
     self <- get_self ;;
     put_self (set_device_uuid v self)
   else ret tt) ;;
  self <- get_self ;;
  ret (_device_uuid self).

Definition is_connected : M t value :=
  value <- _get_value "isConnected" false ;;
  ret (if truthy value then VBool true else VBool false).

Definition current_state : M t value :=
  _get_value "currentState" false.

Definition device_type : M t value :=
  self <- get_self ;;
  (if negb (truthy (_device_type self)) then
     v <- _get_value "devType" true ;;
     self <- get_self ;;
     put_self (set_device_type v self)
   else ret tt) ;;
  self <- get_self ;;
  ret (_device_type self).

Definition in_switch_all_group : M t value :=
  value <- _get_value "inSwitchAll" true ;;
  ret (if truthy value then VBool true else VBool false).

Definition in_switch_schedule : M t value :=
  value <- _get_value "inSwitchSchedule" true ;;
  ret (if truthy value then VBool true else VBool false).

Definition zwave_index : M t value :=
  self <- get_self ;;
  (if negb (truthy (_zwave_index self)) then
     v <- _get_value "position" true ;;
     self <- get_self ;;
     put_self (set_zwave_index v self)
   else ret tt) ;;
  self <- get_self ;;
  ret (_zwave_index self).

Definition is_locked : M t value :=
  value <- _get_value "switchLocked" true ;;
  ret (if truthy value then VBool true else VBool false).

Definition zwave_uuid : M t value :=
  self <- get_self ;;
  (if negb (truthy (_zwave_uuid self)) then
     v <- _get_value "zwUuid" true ;;
     self <- get_self ;;
     put_self (set_zwave_uuid v self)
   else ret tt) ;;
  self <- get_self ;;
  ret (_zwave_uuid self).

(** [False if not self.is_connected or self.is_locked else True]:
    [is_locked] is read only when [is_connected] is true. *)
Definition can_toggle : M t value :=
  connected <- is_connected ;;
  blocked <- (if negb (truthy connected) then ret (VBool true)
              else is_locked) ;;
  ret (if truthy blocked then VBool false else VBool true).

Definition status : M t value :=
  state <- current_state ;;
  ret (if truthy state then VStr "on" else VStr "off").

Definition warning_text : string :=
  "The item is not connected or locked, cannot change state.".

Definition _change_state `{Builtins} (state : value) : M t value :=
  allowed <- can_toggle ;;
  if negb (truthy allowed) then
    emit (LogWarning warning_text) ;;
    ret (VBool false)
  else
    session <- get_toon ;;
    uuid <- device_uuid ;;
    let url := (Session._api_url session ++ "/devices/" ++ py_str uuid)%string in
    session <- get_toon ;;
    data <- http_get_json url (Session._headers session) ;;
    n <- pure (py_int state) ;;
    data <- pure (py_setitem data "currentState" (VInt n)) ;;
    session <- get_toon ;;
    response <- http_put url data (Session._headers session) ;;
    emit (LogDebug "Response received {}" (content response)) ;;
    emit ClearCache ;;
    ret (VBool true).

Definition toggle `{Builtins} : M t value :=
  state <- current_state ;;
  _change_state (py_not state).

Definition turn_on `{Builtins} : M t value := _change_state (VInt 1).

Definition turn_off `{Builtins} : M t value := _change_state (VInt 0).

End Switch.

(** ** class SmartPlug(Switch) *)

Module SmartPlug.

Record t : Type := mk {
  switch : Switch.t;
  _usage_capable : value
}.

Definition __init__ (name : string) : t := mk (Switch.__init__ name) VNone.

(** A method of [Switch] called on a [SmartPlug]: it runs on the
    inherited fields and leaves [_usage_capable] alone. *)
Definition inherited {A} (m : M Switch.t A) : M t A :=
  fun st =>
    let '(r, (sw, w)) := m (switch (fst st), snd st) in
    (r, (mk sw (_usage_capable (fst st)), w)).

Definition _get_value (name : string) (config : bool) : M t value :=
  inherited (Switch._get_value name config).

Definition is_none (v : value) : bool :=
  match v with VNone => true | _ => false end.

Definition usage_capable : M t value :=
  self <- get_self ;;
  (if is_none (_usage_capable self) then
     value <- _get_value "usageCapable" true ;;
     self <- get_self ;;
     put_self (mk (switch self) (if truthy value then VBool true else VBool false))
   else ret tt) ;;
  self <- get_self ;;
  ret (_usage_capable self).

Definition average_usage : M t value :=
  capable <- usage_capable ;;
  if truthy capable then _get_value "avgUsage" false else ret (VInt 0).

Definition current_usage : M t value :=
  capable <- usage_capable ;;
  if truthy capable then _get_value "currentUsage" false else ret (VInt 0).

Definition daily_usage : M t value :=
  capable <- usage_capable ;;
  if truthy capable then _get_value "dayUsage" false else ret (VInt 0).

Definition network_health_state : M t value :=
  _get_value "networkHealthState" false.

Definition quantity_graph_uuid : M t value :=
  _get_value "quantityGraphUuid" true.

Definition flow_graph_uuid : M t value :=
  _get_value "flowGraphUuid" true.

End SmartPlug.

(** ** class Light(Switch) *)

Module Light.

Definition t : Type := Switch.t.

Definition __init__ (name : string) : t := Switch.__init__ name.

Definition rgb_color : M t value := Switch._get_value "rgbColor" false.

End Light.

(** ** Snapshots and lookups *)

Definition has_key (k : string) (d : dict) : bool :=
  existsb (fun e => String.eqb (fst e) k) d.

Definition collection_key (config : bool) : string :=
  if config then "deviceConfigInfo" else "deviceStatusInfo".

(** What [_get_value(name, config)] computes from the snapshot, for the
    device called [self_name]. *)
Definition lookup (self_name name : string) (config : bool) (snapshot : value)
  : result value :=
  match py_get snapshot (collection_key config) with
  | Raise e => Raise e
  | Ok info =>
      match py_get info "device" with
      | Raise e => Raise e
      | Ok devices =>
          match py_iter devices with
          | Raise e => Raise e
          | Ok items => Switch.next_matching self_name name items
          end
      end
  end.

Definition snapshot_of (w : world) : value := Session.status (toon w).

(** The items of one collection, when the snapshot has the documented
    shape. *)
Definition collection (config : bool) (snapshot : value) : option (list value) :=
  match snapshot with
  | VDict top =>
      match dict_get (collection_key config) top with
      | VDict info =>
          match dict_get "device" info with
          | VList items => Some items
          | _ => None
          end
      | _ => None
      end
  | _ => None
  end.

Definition is_entry (item : value) : bool :=
  match item with VDict _ => true | _ => false end.

Definition entry_named (self_name : string) (item : value) : bool :=
  match item with
  | VDict d => py_eq_str (dict_get "name" d) self_name
  | _ => false
  end.

Definition entry_field (name : string) (item : value) : value :=
  match item with VDict d => dict_get name d | _ => VNone end.

(** A well-formed collection: a list whose items are all mappings. *)
Definition well_formed (config : bool) (snapshot : value) : bool :=
  match collection config snapshot with
  | Some items => forallb is_entry items
  | None => false
  end.

(** Well-formed, and no entry is named [self_name]. *)
Definition no_entry (self_name : string) (config : bool) (snapshot : value) : bool :=
  match collection config snapshot with
  | Some items =>
      forallb is_entry items && negb (existsb (entry_named self_name) items)
  | None => false
  end.

(** Well-formed, and the first entry named [self_name], if there is one,
    has no field [name]. *)
Definition field_absent (self_name name : string) (config : bool) (snapshot : value)
  : bool :=
  match collection config snapshot with
  | Some items =>
      forallb is_entry items &&
      match find (entry_named self_name) items with
      | Some (VDict d) => negb (has_key name d)
      | _ => true
      end
  | None => false
  end.

(** ** Observations on a trace *)

Definition logs (evs : list event) (w : world) : world :=
  fold_left (fun w e => log e w) evs w.

Definition is_http (e : event) : bool :=
  match e with HttpGet _ _ | HttpPut _ _ _ => true | _ => false end.

Definition is_clear (e : event) : bool :=
  match e with ClearCache => true | _ => false end.

Definition is_warning (e : event) : bool :=
  match e with LogWarning _ => true | _ => false end.

(** The HTTP calls among the events, in order. *)
Definition http_calls (evs : list event) : list event := filter is_http evs.

(** How many times [_clear_cache()] was called. *)
Definition cache_clears (evs : list event) : nat :=
  List.length (filter is_clear evs).

(** The warnings logged, in order. *)
Definition warnings (evs : list event) : list event := filter is_warning evs.

Definition on_ok {A B} (f : A -> B) (r : result A) : result B :=
  match r with Ok a => Ok (f a) | Raise e => Raise e end.

Definition to_bool (v : value) : value := VBool (truthy v).

(** ** The memoized attributes of a Switch *)

Inductive memo_attr : Type := DeviceUuid | DeviceType | ZwaveIndex | ZwaveUuid.

Definition memo_get (a : memo_attr) : Switch.t -> value :=
  match a with
  | DeviceUuid => Switch._device_uuid
  | DeviceType => Switch._device_type
  | ZwaveIndex => Switch._zwave_index
  | ZwaveUuid => Switch._zwave_uuid
  end.

Definition memo_set (a : memo_attr) : value -> Switch.t -> Switch.t :=
  match a with
  | DeviceUuid => Switch.set_device_uuid
  | DeviceType => Switch.set_device_type
  | ZwaveIndex => Switch.set_zwave_index
  | ZwaveUuid => Switch.set_zwave_uuid
  end.

(** The snapshot field behind the attribute, and its collection. *)
Definition memo_field (a : memo_attr) : string :=
  match a with
  | DeviceUuid => "devUUID"
  | DeviceType => "devType"
  | ZwaveIndex => "position"
  | ZwaveUuid => "zwUuid"
  end.

Definition memo_config (a : memo_attr) : bool :=
  match a with DeviceUuid => false | _ => true end.

Definition memo_property (a : memo_attr) : M Switch.t value :=
  match a with
  | DeviceUuid => Switch.device_uuid
  | DeviceType => Switch.device_type
  | ZwaveIndex => Switch.zwave_index
  | ZwaveUuid => Switch.zwave_uuid
  end.

(** [{api_url}/devices/{id}] *)
Definition device_url `{Builtins} (session : Session.Toon) (uuid : value) : string :=
  (Session._api_url session ++ "/devices/" ++ py_str uuid)%string.

(** The GET body with [currentState] set to [n]. *)
Definition put_body (d : dict) (n : Z) : value :=
  VDict (dict_set "currentState" (VInt n) d).

Definition is_call (e : event) : bool := is_http e || is_clear e.

(** The HTTP calls and cache invalidations among the events, in order. *)
Definition service_calls (evs : list event) : list event := filter is_call evs.

Definition is_status_read (e : event) : bool :=
  match e with StatusRead _ _ => true | _ => false end.

(** ** A sample installation *)

(** An interpreter for runs that format no container and parse no
    string. *)
Definition scalar_builtins : Builtins :=
  {| repr_container := fun _ => "[...]";
     int_of_str := fun _ => Raise ValueError |}.

(** One smart plug, [plug1], connected; its lock, its state and its
    zwave position vary. *)
Definition plug1_snapshot (locked : bool) (state position : Z) : value :=
  VDict
    [("deviceStatusInfo",
      VDict [("device",
              VList [VDict [("name", VStr "plug1"); ("devUUID", VStr "uuid-1");
                            ("isConnected", VInt 1); ("currentState", VInt state);
                            ("avgUsage", VInt 12); ("currentUsage", VInt 7);
                            ("dayUsage", VInt 230)]])]);
     ("deviceConfigInfo",
      VDict [("device",
              VList [VDict [("name", VStr "plug1"); ("devType", VStr "FGWP011");
                            ("position", VInt position);
                            ("switchLocked", VBool locked);
                            ("zwUuid", VStr "zw-1"); ("usageCapable", VBool false)]])])].

(** A snapshot without any device. *)
Definition empty_snapshot : value :=
  VDict [("deviceStatusInfo", VDict [("device", VList [])]);
         ("deviceConfigInfo", VDict [("device", VList [])])].

Definition plug1_document : dict :=
  [("devUUID", VStr "uuid-1"); ("name", VStr "plug1");
   ("currentState", VInt 0); ("isConnected", VInt 1)].

(** A service that knows [plug1] and answers every PUT with the status
    code [code]. *)
Definition service (snapshot : value) (code : Z) : world :=
  mkWorld
    (Session.mkToon snapshot "https://api.toon.eu/toon/v3/1"
                    [("Authorization", "Bearer token")])
    (fun url _ =>
       if String.eqb url "https://api.toon.eu/toon/v3/1/devices/uuid-1"
       then Ok (VDict plug1_document) else Raise RequestException)
    (fun _ _ _ => Ok (mkResponse code "{}"))
    [].

(** ** Independence of the past *)

Definition with_trace (t : list event) (w : world) : world :=
  mkWorld (toon w) (requests_get_json w) (requests_put w) t.

(** A computation is oblivious when the calls made before it started do
    not influence what it returns, what it does to the object, or the
    calls it makes. *)
Definition oblivious {O A} (m : M O A) : Prop :=
  forall self w, exists r self' evs,
    forall t, m (self, with_trace t w) = (r, (self', with_trace (t ++ evs) w)).

(** [m] does what [call] does, after one read of [currentState]: the
    same result, the same object, the same calls. *)
Definition after_state_read {A} (m call : M Switch.t A) (st : Switch.t * world) : Prop :=
  returned m st = returned call st /\
  self_after m st = self_after call st /\
  emitted m st = StatusRead "currentState" false :: emitted call st.

(** The three usage figures of a SmartPlug share one shape. *)
Definition gated_usage (name : string) : M SmartPlug.t value :=
  capable <- SmartPlug.usage_capable ;;
  if truthy capable then SmartPlug._get_value name false else ret (VInt 0).

(** ** The read properties, by kind *)

(** Properties that return the looked-up value as it is, with the field
    and the collection they read. *)
Definition switch_raw_reads : list (M Switch.t value * string * bool) :=
  [(Switch.current_state, "currentState", false);
   (Light.rgb_color, "rgbColor", false)].

Definition plug_raw_reads : list (M SmartPlug.t value * string * bool) :=
  [(SmartPlug.network_health_state, "networkHealthState", false);
   (SmartPlug.quantity_graph_uuid, "quantityGraphUuid", true);
   (SmartPlug.flow_graph_uuid, "flowGraphUuid", true)].

(** Properties that coerce the looked-up value to a boolean. *)
Definition switch_bool_reads : list (M Switch.t value * string * bool) :=
  [(Switch.is_connected, "isConnected", false);
   (Switch.is_locked, "switchLocked", true);
   (Switch.in_switch_all_group, "inSwitchAll", true);
   (Switch.in_switch_schedule, "inSwitchSchedule", true)].

(** The usage figures, gated by [usage_capable]. *)
Definition plug_gated_reads : list (M SmartPlug.t value * string) :=
  [(SmartPlug.average_usage, "avgUsage");
   (SmartPlug.current_usage, "currentUsage");
   (SmartPlug.daily_usage, "dayUsage")].

(** ** The life of a device: accesses and snapshot replacements *)

(** The five lazily memoized fields of a SmartPlug. *)
Inductive lazy_field : Type :=
| Memo (a : memo_attr)
| UsageCapable.

Definition access (f : lazy_field) : M SmartPlug.t value :=
  match f with
  | Memo a => SmartPlug.inherited (memo_property a)
  | UsageCapable => SmartPlug.usage_capable
  end.

Definition lazy_name (f : lazy_field) : string :=
  match f with Memo a => memo_field a | UsageCapable => "usageCapable" end.

Definition lazy_config (f : lazy_field) : bool :=
  match f with Memo a => memo_config a | UsageCapable => true end.

(** The attribute behind the field. *)
Definition stored (f : lazy_field) (self : SmartPlug.t) : value :=
  match f with
  | Memo a => memo_get a (SmartPlug.switch self)
  | UsageCapable => SmartPlug._usage_capable self
  end.

Definition store (f : lazy_field) (v : value) (self : SmartPlug.t) : SmartPlug.t :=
  match f with
  | Memo a => SmartPlug.mk (memo_set a v (SmartPlug.switch self))
                           (SmartPlug._usage_capable self)
  | UsageCapable => SmartPlug.mk (SmartPlug.switch self) v
  end.

(** What the property keeps of the value it looked up. *)
Definition kept (f : lazy_field) (v : value) : value :=
  match f with Memo _ => v | UsageCapable => VBool (truthy v) end.

(** The test the property makes before it looks the snapshot up:
    [if not self._x] for the identifiers, [if self._x is None] for
    [usage_capable]. *)
Definition populated (f : lazy_field) (self : SmartPlug.t) : bool :=
  match f with
  | Memo a => truthy (stored f self)
  | UsageCapable => negb (SmartPlug.is_none (stored f self))
  end.

Inductive action : Type :=
| Access (f : lazy_field)
| Replace (snapshot : value).

(** One step in the life of a device; an access that raises is survived
    by the caller. *)
Definition step (a : action) (st : SmartPlug.t * world) : SmartPlug.t * world :=
  match a with
  | Access f => snd (access f st)
  | Replace snapshot => (fst st, replace_snapshot snapshot (snd st))
  end.

Definition run (acts : list action) (st : SmartPlug.t * world) : SmartPlug.t * world :=
  fold_left (fun st a => step a st) acts st.

Definition is_lookup (f : lazy_field) (e : event) : bool :=
  match e with
  | StatusRead name config =>
      String.eqb name (lazy_name f) && Bool.eqb config (lazy_config f)
  | _ => false
  end.

(** How many times the snapshot was looked up for the field. *)
Definition lookups (f : lazy_field) (evs : list event) : nat :=
  List.length (filter (is_lookup f) evs).

(** ** What a method may touch *)

(** A method has footprint [(R, P)] when, from any object and world, it
    leaves the object in relation [R] to what it was, makes only calls
    that satisfy [P], and does both whatever was called before and
    whether it returns or raises. *)
Definition footprint {O A} (R : O -> O -> Prop) (P : event -> bool) (m : M O A)
  : Prop :=
  forall self w, exists r self' evs,
    R self self' /\ forallb P evs = true /\
    forall t, m (self, with_trace t w) = (r, (self', with_trace (t ++ evs) w)).

(** The attributes of a Switch other than [_device_uuid] are the same. *)
Definition same_but_uuid (self self' : Switch.t) : Prop :=
  Switch._name self' = Switch._name self /\
  Switch._device_type self' = Switch._device_type self /\
  Switch._zwave_index self' = Switch._zwave_index self /\
  Switch._zwave_uuid self' = Switch._zwave_uuid self.

Definition same_name (self self' : Switch.t) : Prop :=
  Switch._name self' = Switch._name self.

Definition any_event (e : event) : bool := true.

(** The properties of a Switch that keep nothing. *)
Definition switch_plain_reads : list (M Switch.t value) :=
  [Switch.name; Switch.current_state; Switch.is_connected; Switch.is_locked;
   Switch.in_switch_all_group; Switch.in_switch_schedule; Switch.status;
   Switch.can_toggle; Light.rgb_color].

(** The memoizing ones. *)
Definition switch_memo_reads : list (M Switch.t value) :=
  [Switch.device_uuid; Switch.device_type; Switch.zwave_index; Switch.zwave_uuid].

(** The methods that change the state of the device. *)
Definition switch_actions `{Builtins} (state : value) : list (M Switch.t value) :=
  [Switch._change_state state; Switch.toggle; Switch.turn_on; Switch.turn_off].

(** The properties a SmartPlug adds. *)
Definition plug_reads : list (M SmartPlug.t value) :=
  [SmartPlug.usage_capable; SmartPlug.average_usage; SmartPlug.current_usage;
   SmartPlug.daily_usage; SmartPlug.network_health_state;
   SmartPlug.quantity_graph_uuid; SmartPlug.flow_graph_uuid].

Definition plug_same_name (self self' : SmartPlug.t) : Prop :=
  same_name (SmartPlug.switch self) (SmartPlug.switch self').

(** The inherited attributes are the same; only [_usage_capable] may
    differ. *)
Definition same_switch (self self' : SmartPlug.t) : Prop :=
  SmartPlug.switch self' = SmartPlug.switch self.

(** A sample with a damaged configuration collection: the status
    collection knows [plug1], disconnected; the configuration has no
    [device] list. *)
Definition damaged_config_snapshot : value :=
  VDict
    [("deviceStatusInfo",
      VDict [("device",
              VList [VDict [("name", VStr "plug1"); ("isConnected", VInt 0)]])]);
     ("deviceConfigInfo", VDict [])].

(** ** The write of _change_state, outcome by outcome *)

(** What the allowed branch returns and which calls it makes after the
    url is known, for each answer of the service. *)
Definition write_calls `{Builtins} (w : world) (url : string) (hdrs : headers)
           (state : value) : result value * list event :=
  match requests_get_json w url hdrs with
  | Raise e => (Raise e, [HttpGet url hdrs])
  | Ok data =>
      match py_int state with
      | Raise e => (Raise e, [HttpGet url hdrs])
      | Ok n =>
          match py_setitem data "currentState" (VInt n) with
          | Raise e => (Raise e, [HttpGet url hdrs])
          | Ok body =>
              match requests_put w url body hdrs with
              | Raise e => (Raise e, [HttpGet url hdrs; HttpPut url body hdrs])
              | Ok response =>
                  (Ok (VBool true),
                   [HttpGet url hdrs; HttpPut url body hdrs;
                    LogDebug "Response received {}" (content response);
                    ClearCache])
              end
          end
      end
  end.

Definition returned_true (r : result value) : bool :=
  match r with Ok (VBool true) => true | _ => false end.

(** At most one GET, and a PUT only after it, to the same url with the
    same headers. *)
Definition get_then_put (calls : list event) : Prop :=
  calls = [] \/
  exists url hdrs,
    calls = [HttpGet url hdrs] \/
    exists body, calls = [HttpGet url hdrs; HttpPut url body hdrs].

(** A service whose GET answers with a JSON list and whose PUT fails. *)
Definition broken_service (snapshot : value) (get_ok : bool) : world :=
  mkWorld
    (Session.mkToon snapshot "https://api.toon.eu/toon/v3/1"
                    [("Authorization", "Bearer token")])
    (fun _ _ => if get_ok then Ok (VDict plug1_document) else Ok (VList []))
    (fun _ _ _ => Raise RequestException)
    [].

(** The configuration collection of the snapshot can be searched for the
    device without an exception. *)
Definition config_readable (self_name : string) (snapshot : value) : bool :=
  is_ok (lookup self_name "usageCapable" true snapshot).

(** Every snapshot the session puts in place satisfies [ok]. *)
Definition replacements_ok (ok : value -> bool) (acts : list action) : bool :=
  forallb (fun a => match a with Replace snapshot => ok snapshot | Access _ => true end)
          acts.

Definition plug_name (st : SmartPlug.t * world) : string :=
  Switch._name (SmartPlug.switch (fst st)).

(** The entries of a collection that carry the device's name, in their
    order. *)
Definition own_entries (self_name : string) (items : list value) : list value :=
  filter (entry_named self_name) items.

(** [plug1] connected and unlocked, its status entry without a
    [devUUID]. *)
Definition anonymous_plug_snapshot : value :=
  VDict
    [("deviceStatusInfo",
      VDict [("device",
              VList [VDict [("name", VStr "plug1"); ("isConnected", VInt 1);
                            ("currentState", VInt 0)]])]);
     ("deviceConfigInfo",
      VDict [("device",
              VList [VDict [("name", VStr "plug1"); ("switchLocked", VBool false)]])])].

(** [plug1] connected and unlocked, with its uuid, its status entry
    without a [currentState]. *)
Definition stateless_plug_snapshot : value :=
  VDict
    [("deviceStatusInfo",
      VDict [("device",
              VList [VDict [("name", VStr "plug1"); ("devUUID", VStr "uuid-1");
                            ("isConnected", VInt 1)]])]);
     ("deviceConfigInfo",
      VDict [("device",
              VList [VDict [("name", VStr "plug1"); ("switchLocked", VBool false)]])])].

(** * Properties *)

(** ** Dicts *)

Lemma dict_get_set_same (k : string) (v : value) (d : dict) :
  dict_get k (dict_set k v d) = v.
Proof.
  induction d as [|[k' v'] rest IH]; simpl.
  - now rewrite String.eqb_refl.
  - destruct (String.eqb k' k) eqn:E; simpl; now rewrite E.
Qed.

Lemma dict_get_set_other (k k' : string) (v : value) (d : dict) :
  k <> k' -> dict_get k' (dict_set k v d) = dict_get k' d.
Proof.
  intros Hne. induction d as [|[k0 v0] rest IH]; simpl.
  - destruct (String.eqb_spec k k'); [contradiction | reflexivity].
  - destruct (String.eqb_spec k0 k) as [->|Hk]; simpl.
    + destruct (String.eqb_spec k k'); [contradiction | reflexivity].
    + destruct (String.eqb k0 k'); [reflexivity | exact IH].
Qed.

Lemma dict_get_no_key (k : string) (d : dict) :
  has_key k d = false -> dict_get k d = VNone.
Proof.
  induction d as [|[k' v'] rest IH]; simpl; [reflexivity|].
  destruct (String.eqb k' k); simpl; [discriminate | exact IH].
Qed.

(** Assignment keeps the keys in their order; a new key goes last. *)
Lemma dict_set_keys (k : string) (v : value) (d : dict) :
  map fst (dict_set k v d) =
  if has_key k d then map fst d else map fst d ++ [k].
Proof.
  induction d as [|[k' v'] rest IH]; simpl; [reflexivity|].
  destruct (String.eqb k' k) eqn:E; simpl; [reflexivity|].
  rewrite IH. now destruct (has_key k rest).
Qed.

Lemma get_value_run (name : string) (config : bool) (self : Switch.t) (w : world) :
  Switch._get_value name config (self, w) =
  (lookup (Switch._name self) name config (snapshot_of w),
   (self, log (StatusRead name config) w)).
Proof.
  unfold Switch._get_value, lookup, collection_key, snapshot_of, bind, pure,
    get_self, toon_status; simpl.
  destruct (py_get _ _) as [info|e]; [|reflexivity].
  destruct (py_get info _) as [devices|e]; [|reflexivity].
  destruct (py_iter devices) as [items|e]; reflexivity.
Qed.

Lemma next_matching_find (self_name name : string) (items : list value) :
  forallb is_entry items = true ->
  Switch.next_matching self_name name items =
  Ok match find (entry_named self_name) items with
     | Some item => entry_field name item
     | None => VNone
     end.
Proof.
  induction items as [|item rest IH]; simpl; [reflexivity|].
  intros H. apply andb_prop in H. destruct H as [Hi Hr].
  destruct item; try discriminate. simpl.
  destruct (py_eq_str (dict_get "name" entries) self_name); [reflexivity|].
  now apply IH.
Qed.

Lemma lookup_well_formed (self_name name : string) (config : bool)
      (snapshot : value) (items : list value) :
  collection config snapshot = Some items ->
  forallb is_entry items = true ->
  lookup self_name name config snapshot =
  Ok match find (entry_named self_name) items with
     | Some item => entry_field name item
     | None => VNone
     end.
Proof.
  unfold collection, lookup. intros Hc Hwf.
  destruct snapshot; try discriminate. simpl.
  destruct (dict_get (collection_key config) entries); try discriminate. simpl.
  destruct (dict_get "device" entries0); try discriminate. simpl.
  injection Hc as ->. now apply next_matching_find.
Qed.

Lemma no_entry_field_absent (self_name name : string) (config : bool)
      (snapshot : value) :
  no_entry self_name config snapshot = true ->
  field_absent self_name name config snapshot = true.
Proof.
  unfold no_entry, field_absent.
  destruct (collection config snapshot) as [items|]; [|discriminate].
  intros H. apply andb_prop in H. destruct H as [Hwf Hno].
  rewrite Hwf. simpl.
  destruct (find (entry_named self_name) items) eqn:F; [|reflexivity].
  apply find_some in F. destruct F as [Hin Hn].
  apply negb_true_iff in Hno.
  assert (existsb (entry_named self_name) items = true)
    by (apply existsb_exists; eauto).
  congruence.
Qed.

Lemma field_absent_well_formed (self_name name : string) (config : bool)
      (snapshot : value) :
  field_absent self_name name config snapshot = true ->
  well_formed config snapshot = true.
Proof.
  unfold field_absent, well_formed.
  destruct (collection config snapshot); [|discriminate].
  intros H. now apply andb_prop in H.
Qed.

(** A lookup of an absent field yields [None] and does not raise. *)
Lemma lookup_absent (self_name name : string) (config : bool) (snapshot : value) :
  field_absent self_name name config snapshot = true ->
  lookup self_name name config snapshot = Ok VNone.
Proof.
  unfold field_absent.
  destruct (collection config snapshot) as [items|] eqn:Hc; [|discriminate].
  intros H. apply andb_prop in H. destruct H as [Hwf Hf].
  rewrite (lookup_well_formed _ _ _ _ _ Hc Hwf).
  destruct (find (entry_named self_name) items) as [item|] eqn:F; [|reflexivity].
  apply find_some in F. destruct F as [_ Hn].
  destruct item; try discriminate. simpl.
  apply negb_true_iff in Hf. now rewrite (dict_get_no_key _ _ Hf).
Qed.

(** Whether a lookup raises does not depend on the field asked for. *)
Lemma next_matching_raises (self_name name name' : string) (items : list value) :
  is_ok (Switch.next_matching self_name name items) =
  is_ok (Switch.next_matching self_name name' items).
Proof.
  induction items as [|item rest IH]; simpl; [reflexivity|].
  destruct item; simpl; try reflexivity.
  destruct (py_eq_str _ _); [reflexivity | exact IH].
Qed.

Lemma lookup_raises (self_name name name' : string) (config : bool)
      (snapshot : value) :
  is_ok (lookup self_name name config snapshot) =
  is_ok (lookup self_name name' config snapshot).
Proof.
  unfold lookup.
  destruct (py_get snapshot _) as [info|]; [|reflexivity].
  destruct (py_get info _) as [devices|]; [|reflexivity].
  destruct (py_iter devices) as [items|]; [|reflexivity].
  apply next_matching_raises.
Qed.

(** ** Traces *)

Lemma trace_logs (evs : list event) (w : world) :
  trace (logs evs w) = trace w ++ evs.
Proof.
  revert w. induction evs as [|e evs IH]; intros w; simpl.
  - now rewrite app_nil_r.
  - unfold logs in IH. rewrite IH. simpl. now rewrite <- app_assoc.
Qed.

Lemma logs_app (evs evs' : list event) (w : world) :
  logs (evs ++ evs') w = logs evs' (logs evs w).
Proof. unfold logs. apply fold_left_app. Qed.

Lemma emitted_logs {O A} (m : M O A) (st : O * world) r self' evs :
  m st = (r, (self', logs evs (snd st))) -> emitted m st = evs.
Proof.
  intros E. unfold emitted, world_after. rewrite E. simpl.
  rewrite trace_logs, skipn_app, Nat.sub_diag, skipn_all. reflexivity.
Qed.

(** ** The read properties, run *)

Lemma bool_property_run (name : string) (config : bool) (self : Switch.t) (w : world) :
  (value <- Switch._get_value name config ;;
   ret (if truthy value then VBool true else VBool false)) (self, w) =
  (on_ok to_bool (lookup (Switch._name self) name config (snapshot_of w)),
   (self, logs [StatusRead name config] w)).
Proof.
  unfold bind. rewrite get_value_run.
  destruct (lookup _ _ _ _) as [v|e]; [|reflexivity].
  unfold ret, to_bool. simpl. now destruct (truthy v).
Qed.

Lemma is_connected_run (self : Switch.t) (w : world) :
  Switch.is_connected (self, w) =
  (on_ok to_bool (lookup (Switch._name self) "isConnected" false (snapshot_of w)),
   (self, logs [StatusRead "isConnected" false] w)).
Proof. apply bool_property_run. Qed.

Lemma is_locked_run (self : Switch.t) (w : world) :
  Switch.is_locked (self, w) =
  (on_ok to_bool (lookup (Switch._name self) "switchLocked" true (snapshot_of w)),
   (self, logs [StatusRead "switchLocked" true] w)).
Proof. apply bool_property_run. Qed.

Lemma status_run (self : Switch.t) (w : world) :
  Switch.status (self, w) =
  (on_ok (fun v => VStr (if truthy v then "on" else "off"))
         (lookup (Switch._name self) "currentState" false (snapshot_of w)),
   (self, logs [StatusRead "currentState" false] w)).
Proof.
  unfold Switch.status, Switch.current_state, bind. rewrite get_value_run.
  destruct (lookup _ _ _ _) as [v|e]; [|reflexivity].
  unfold ret. simpl. now destruct (truthy v).
Qed.

Lemma can_toggle_run (self : Switch.t) (w : world) :
  Switch.can_toggle (self, w) =
  match lookup (Switch._name self) "isConnected" false (snapshot_of w) with
  | Raise e => (Raise e, (self, logs [StatusRead "isConnected" false] w))
  | Ok c =>
      if truthy c then
        (on_ok (fun l => VBool (negb (truthy l)))
               (lookup (Switch._name self) "switchLocked" true (snapshot_of w)),
         (self, logs [StatusRead "isConnected" false; StatusRead "switchLocked" true] w))
      else (Ok (VBool false), (self, logs [StatusRead "isConnected" false] w))
  end.
Proof.
  unfold Switch.can_toggle, bind at 1. rewrite is_connected_run.
  destruct (lookup _ "isConnected" _ _) as [c|e]; [|reflexivity].
  simpl on_ok. unfold to_bool. simpl truthy.
  destruct (truthy c); simpl negb; cbv iota.
  - unfold bind. rewrite is_locked_run.
    change (snapshot_of (logs _ w)) with (snapshot_of w).
    destruct (lookup _ "switchLocked" _ _) as [l|e]; [|reflexivity].
    unfold ret, to_bool. simpl. now destruct (truthy l).
  - reflexivity.
Qed.

(** ** can_toggle *)

Lemma can_toggle_is_bool (st : Switch.t * world) (v : value) :
  returned Switch.can_toggle st = Ok v -> v = VBool (truthy v).
Proof.
  destruct st as [self w]. unfold returned. rewrite can_toggle_run.
  destruct (lookup _ "isConnected" _ _) as [c|e]; [|discriminate].
  destruct (truthy c).
  - destruct (lookup _ "switchLocked" _ _) as [l|e]; simpl; [|discriminate].
    intros [= <-]. reflexivity.
  - simpl. intros [= <-]. reflexivity.
Qed.

(** C3: [can_toggle] is true exactly when [is_connected] is true and
    [is_locked] is false, and its value is [connected and not locked] in
    each of the four combinations of the two booleans. *)
Theorem can_toggle_iff (st : Switch.t * world) :
  (returned Switch.can_toggle st = Ok (VBool true) <->
   returned Switch.is_connected st = Ok (VBool true) /\
   returned Switch.is_locked st = Ok (VBool false)) /\
  (forall connected locked : bool,
     returned Switch.is_connected st = Ok (VBool connected) ->
     returned Switch.is_locked st = Ok (VBool locked) ->
     returned Switch.can_toggle st = Ok (VBool (connected && negb locked))).
Proof.
  destruct st as [self w]. unfold returned.
  rewrite can_toggle_run, is_connected_run, is_locked_run. simpl fst.
  destruct (lookup _ "isConnected" _ _) as [c|e]; unfold to_bool; simpl.
  - destruct (truthy c); simpl.
    + destruct (lookup _ "switchLocked" _ _) as [l|e]; simpl.
      * destruct (truthy l); simpl; (split; [split|]).
        all: try (intros H; discriminate H).
        all: try (intros [_ H]; discriminate H).
        all: try (intros connected locked [= <-] [= <-]; reflexivity).
        all: auto.
      * split; [split|].
        -- intros H; discriminate H.
        -- intros [_ H]; discriminate H.
        -- intros connected locked _ H; discriminate H.
    + split; [split|].
      * intros H; discriminate H.
      * intros [H _]; discriminate H.
      * intros connected locked [= <-] _; reflexivity.
  - split; [split|].
    + intros H; discriminate H.
    + intros [H _]; discriminate H.
    + intros connected locked H; discriminate H.
Qed.

Lemma can_toggle_iff_witness :
  let st := (Switch.__init__ "plug1",
             mkWorld (Session.mkToon
                        (VDict [("deviceStatusInfo",
                                 VDict [("device", VList [VDict [("name", VStr "plug1");
                                                                 ("isConnected", VInt 1)]])]);
                                ("deviceConfigInfo",
                                 VDict [("device", VList [VDict [("name", VStr "plug1");
                                                                 ("switchLocked", VBool false)]])])])
                        "https://api.toon.eu/toon/v3/x" [])
                     (fun _ _ => Raise RequestException)
                     (fun _ _ _ => Raise RequestException) []) in
  returned Switch.is_connected st = Ok (VBool true) /\
  returned Switch.is_locked st = Ok (VBool false) /\
  returned Switch.can_toggle st = Ok (VBool true).
Proof.
  intros st.
  split; [reflexivity | split; [reflexivity|]].
  apply (proj1 (can_toggle_iff st)). split; reflexivity.
Defined.

(** ** status *)

(** C9: [status] is the string "on" when the raw [currentState] value of
    the device's status entry is truthy and "off" otherwise. *)
Theorem status_on_off (self : Switch.t) (w : world) (v : value) :
  returned Switch.current_state (self, w) = Ok v ->
  returned Switch.current_state (self, w) =
    lookup (Switch._name self) "currentState" false (snapshot_of w) /\
  returned Switch.status (self, w) =
    Ok (VStr (if truthy v then "on" else "off")).
Proof.
  unfold returned, Switch.current_state. rewrite status_run, get_value_run.
  simpl. intros ->. split; reflexivity.
Qed.

(** ** Memoized attributes, run *)

Lemma memo_property_run (a : memo_attr) (self : Switch.t) (w : world) :
  memo_property a (self, w) =
  if truthy (memo_get a self) then (Ok (memo_get a self), (self, w))
  else
    match lookup (Switch._name self) (memo_field a) (memo_config a) (snapshot_of w) with
    | Ok v => (Ok v, (memo_set a v self, logs [StatusRead (memo_field a) (memo_config a)] w))
    | Raise e => (Raise e, (self, logs [StatusRead (memo_field a) (memo_config a)] w))
    end.
Proof.
  destruct a; simpl;
    unfold Switch.device_uuid, Switch.device_type, Switch.zwave_index, Switch.zwave_uuid;
    unfold bind at 1; unfold get_self at 1; simpl fst;
    match goal with |- context [truthy ?m] => destruct (truthy m) end;
    simpl negb; cbv iota; try reflexivity;
    unfold bind; rewrite get_value_run;
    destruct (lookup _ _ _ _); reflexivity.
Qed.

(** ** _change_state *)

Section ChangeState.
Context `{Builtins}.

(** The refusal: [can_toggle] is false. *)
Lemma refusal_run (state : value) (self : Switch.t) (w : world) :
  returned Switch.can_toggle (self, w) = Ok (VBool false) ->
  Switch._change_state state (self, w) =
  (Ok (VBool false),
   (self, logs (emitted Switch.can_toggle (self, w) ++ [LogWarning Switch.warning_text]) w)).
Proof.
  unfold returned. intros Hc.
  assert (Hrun : exists evs, Switch.can_toggle (self, w) = (Ok (VBool false), (self, logs evs w))).
  { rewrite can_toggle_run in *.
    destruct (lookup _ "isConnected" _ _) as [c|e]; [|discriminate].
    destruct (truthy c).
    - destruct (lookup _ "switchLocked" _ _) as [l|e]; [|discriminate].
      simpl in Hc. unfold on_ok. rewrite Hc. eauto.
    - eauto. }
  destruct Hrun as [evs Hrun].
  rewrite (emitted_logs _ _ _ _ _ Hrun).
  unfold Switch._change_state, bind at 1. rewrite Hrun. simpl.
  unfold bind, emit, ret. simpl. rewrite logs_app. reflexivity.
Qed.

(** The write: [can_toggle] is true, the GET answers with a JSON
    object, [int(state)] is defined and the PUT comes back with a
    response. *)
Lemma write_run (state : value) (self : Switch.t) (w : world)
      (uuid : value) (d : dict) (n : Z) (response : http_response) :
  let url := device_url (toon w) uuid in
  let hdrs := Session._headers (toon w) in
  returned Switch.can_toggle (self, w) = Ok (VBool true) ->
  returned Switch.device_uuid (self, w) = Ok uuid ->
  requests_get_json w url hdrs = Ok (VDict d) ->
  py_int state = Ok n ->
  requests_put w url (put_body d n) hdrs = Ok response ->
  Switch._change_state state (self, w) =
  (Ok (VBool true),
   (if truthy (Switch._device_uuid self) then self
    else Switch.set_device_uuid uuid self,
    logs ([StatusRead "isConnected" false; StatusRead "switchLocked" true] ++
          (if truthy (Switch._device_uuid self) then []
           else [StatusRead "devUUID" false]) ++
          [HttpGet url hdrs; HttpPut url (put_body d n) hdrs;
           LogDebug "Response received {}" (content response); ClearCache]) w)).
Proof.
  intros url hdrs Hc Hu Hget Hint Hput. unfold returned in Hc, Hu.
  subst url hdrs. unfold device_url, put_body in *.
  change Switch.device_uuid with (memo_property DeviceUuid) in Hu.
  rewrite memo_property_run in Hu. rewrite can_toggle_run in Hc.
  unfold Switch._change_state, bind at 1. rewrite can_toggle_run.
  destruct (lookup _ "isConnected" _ _) as [c|e]; [|discriminate].
  destruct (truthy c); [|discriminate].
  destruct (lookup _ "switchLocked" _ _) as [l|e]; [|discriminate].
  simpl in Hc. injection Hc as Hl. unfold on_ok. rewrite Hl.
  cbn [negb truthy]. cbv beta iota.
  unfold bind at 1. unfold get_toon at 1. cbv beta iota.
  unfold bind at 1.
  change Switch.device_uuid with (memo_property DeviceUuid).
  rewrite memo_property_run.
  change (snapshot_of (logs _ w)) with (snapshot_of w).
  cbn [memo_get memo_field memo_config memo_set] in *.
  destruct (truthy (Switch._device_uuid self)).
  - cbn [fst] in Hu. injection Hu as Hu. subst uuid.
    unfold bind, get_toon, http_get_json, http_put, pure, emit, ret.
    cbn [fst snd log toon requests_get_json requests_put logs fold_left].
    rewrite Hget, Hint. cbn [py_setitem]. rewrite Hput. reflexivity.
  - destruct (lookup _ "devUUID" _ _) as [v|e]; [|discriminate].
    cbn [fst] in Hu. injection Hu as Hu. subst uuid.
    unfold bind, get_toon, http_get_json, http_put, pure, emit, ret.
    cbn [fst snd log toon requests_get_json requests_put logs fold_left].
    rewrite Hget, Hint. cbn [py_setitem]. rewrite Hput. reflexivity.
Qed.

(** The allowed branch in full: what it returns for every answer of the
    service.  It never returns False, and it raises when the GET fails or
    its body is no JSON object, when [int(state)] is undefined, and when
    the PUT fails. *)
Lemma write_outcome (state : value) (self : Switch.t) (w : world) (uuid : value) :
  let url := device_url (toon w) uuid in
  let hdrs := Session._headers (toon w) in
  returned Switch.can_toggle (self, w) = Ok (VBool true) ->
  returned Switch.device_uuid (self, w) = Ok uuid ->
  returned (Switch._change_state state) (self, w) =
  match requests_get_json w url hdrs with
  | Raise e => Raise e
  | Ok data =>
      match py_int state with
      | Raise e => Raise e
      | Ok n =>
          match py_setitem data "currentState" (VInt n) with
          | Raise e => Raise e
          | Ok body =>
              match requests_put w url body hdrs with
              | Raise e => Raise e
              | Ok _ => Ok (VBool true)
              end
          end
      end
  end.
Proof.
  intros url hdrs Hc Hu. unfold returned in *.
  subst url hdrs. unfold device_url in *.
  change Switch.device_uuid with (memo_property DeviceUuid) in Hu.
  rewrite memo_property_run in Hu. rewrite can_toggle_run in Hc.
  unfold Switch._change_state, bind at 1. rewrite can_toggle_run.
  destruct (lookup _ "isConnected" _ _) as [c|e]; [|discriminate].
  destruct (truthy c); [|discriminate].
  destruct (lookup _ "switchLocked" _ _) as [l|e]; [|discriminate].
  simpl in Hc. injection Hc as Hl. unfold on_ok. rewrite Hl.
  cbn [negb truthy]. cbv beta iota.
  unfold bind at 1. unfold get_toon at 1. cbv beta iota.
  unfold bind at 1.
  change Switch.device_uuid with (memo_property DeviceUuid).
  rewrite memo_property_run.
  change (snapshot_of (logs _ w)) with (snapshot_of w).
  cbn [memo_get memo_field memo_config memo_set] in *.
  destruct (truthy (Switch._device_uuid self)).
  - cbn [fst] in Hu. injection Hu as Hu. subst uuid.
    unfold bind, get_toon, http_get_json, http_put, pure, emit, ret.
    cbn [fst snd log toon requests_get_json requests_put logs fold_left].
    destruct (requests_get_json w _ _) as [data|e]; [|reflexivity].
    destruct (py_int state) as [n|e]; [|reflexivity].
    destruct (py_setitem data _ _) as [body|e]; [|reflexivity].
    destruct (requests_put w _ _ _) as [response|e]; reflexivity.
  - destruct (lookup _ "devUUID" _ _) as [v|e]; [|discriminate].
    cbn [fst] in Hu. injection Hu as Hu. subst uuid.
    unfold bind, get_toon, http_get_json, http_put, pure, emit, ret.
    cbn [fst snd log toon requests_get_json requests_put logs fold_left].
    destruct (requests_get_json w _ _) as [data|e]; [|reflexivity].
    destruct (py_int state) as [n|e]; [|reflexivity].
    destruct (py_setitem data _ _) as [body|e]; [|reflexivity].
    destruct (requests_put w _ _ _) as [response|e]; reflexivity.
Qed.

(** When [can_toggle] is true the device has a status entry, so the
    uuid lookup succeeds. *)
Lemma can_toggle_uuid (self : Switch.t) (w : world) :
  returned Switch.can_toggle (self, w) = Ok (VBool true) ->
  exists uuid, returned Switch.device_uuid (self, w) = Ok uuid.
Proof.
  unfold returned. rewrite can_toggle_run.
  change Switch.device_uuid with (memo_property DeviceUuid).
  rewrite memo_property_run. simpl memo_get. simpl memo_field. simpl memo_config.
  intros Hc.
  destruct (truthy (Switch._device_uuid self)); [eexists; reflexivity|].
  pose proof (lookup_raises (Switch._name self) "isConnected" "devUUID" false
                (snapshot_of w)) as Hr.
  destruct (lookup _ "isConnected" _ _) as [c|e]; [|discriminate].
  destruct (lookup _ "devUUID" _ _) as [v|e]; [eexists; reflexivity | discriminate Hr].
Qed.

End ChangeState.

Section ChangeStateClaims.
Context `{Builtins}.

Lemma can_toggle_only_reads (self : Switch.t) (w : world) :
  forallb is_status_read (emitted Switch.can_toggle (self, w)) = true /\
  self_after Switch.can_toggle (self, w) = self.
Proof.
  assert (E : exists r evs, forallb is_status_read evs = true /\
              Switch.can_toggle (self, w) = (r, (self, logs evs w))).
  { rewrite can_toggle_run.
    destruct (lookup _ "isConnected" _ _) as [c|e].
    - destruct (truthy c); do 2 eexists; (split; [|reflexivity]); reflexivity.
    - do 2 eexists; (split; [|reflexivity]); reflexivity. }
  destruct E as (r & evs & Hevs & E).
  rewrite (emitted_logs _ _ _ _ _ E). unfold self_after. rewrite E. auto.
Qed.

Lemma reads_are_no_calls (evs : list event) :
  forallb is_status_read evs = true ->
  http_calls evs = [] /\ cache_clears evs = 0 /\ warnings evs = [] /\
  service_calls evs = [].
Proof.
  unfold http_calls, cache_clears, warnings, service_calls.
  induction evs as [|e evs IH]; simpl; [auto|].
  intros Hr. apply andb_prop in Hr. destruct Hr as [He Hr].
  destruct e; try discriminate. simpl. auto.
Qed.

(** C1: with [can_toggle] true, a [_change_state(state)] whose GET is
    answered with a JSON object and whose PUT is answered returns True
    after exactly one GET, then exactly one PUT, then exactly one
    [_clear_cache()]; both requests go to [{api_url}/devices/{device_uuid}],
    and the PUT body is the GET body with [currentState] set to
    [int(state)] and every other field, and the order of the fields,
    untouched. *)
Theorem change_state_get_put_clear (state : value) (self : Switch.t) (w : world)
        (uuid : value) (d : dict) (n : Z) (response : http_response) :
  let url := device_url (toon w) uuid in
  let hdrs := Session._headers (toon w) in
  let body := dict_set "currentState" (VInt n) d in
  returned Switch.can_toggle (self, w) = Ok (VBool true) ->
  returned Switch.device_uuid (self, w) = Ok uuid ->
  requests_get_json w url hdrs = Ok (VDict d) ->
  py_int state = Ok n ->
  requests_put w url (VDict body) hdrs = Ok response ->
  returned (Switch._change_state state) (self, w) = Ok (VBool true) /\
  service_calls (emitted (Switch._change_state state) (self, w)) =
    [HttpGet url hdrs; HttpPut url (VDict body) hdrs; ClearCache] /\
  cache_clears (emitted (Switch._change_state state) (self, w)) = 1 /\
  dict_get "currentState" body = VInt n /\
  (forall k, k <> "currentState" -> dict_get k body = dict_get k d) /\
  map fst body =
    if has_key "currentState" d then map fst d else map fst d ++ ["currentState"].
Proof.
  intros url hdrs body Hc Hu Hget Hint Hput.
  pose proof (write_run state self w uuid d n response
                Hc Hu Hget Hint Hput) as E.
  rewrite (emitted_logs _ _ _ _ _ E). unfold returned. rewrite E.
  split; [reflexivity|]. split; [|split; [|split; [|split]]].
  - destruct (truthy (Switch._device_uuid self)); reflexivity.
  - destruct (truthy (Switch._device_uuid self)); reflexivity.
  - apply dict_get_set_same.
  - intros k Hk. now apply dict_get_set_other.
  - apply dict_set_keys.
Qed.

(** C2: with [can_toggle] false, [_change_state(state)] makes no HTTP
    call, does not invalidate the cache, logs one warning, leaves the
    object as it was and returns False without raising. *)
Theorem change_state_refused (state : value) (self : Switch.t) (w : world) :
  returned Switch.can_toggle (self, w) = Ok (VBool false) ->
  returned (Switch._change_state state) (self, w) = Ok (VBool false) /\
  http_calls (emitted (Switch._change_state state) (self, w)) = [] /\
  cache_clears (emitted (Switch._change_state state) (self, w)) = 0 /\
  warnings (emitted (Switch._change_state state) (self, w)) =
    [LogWarning Switch.warning_text] /\
  self_after (Switch._change_state state) (self, w) = self.
Proof.
  intros Hc. pose proof (refusal_run state self w Hc) as E.
  rewrite (emitted_logs _ _ _ _ _ E). unfold returned, self_after. rewrite E.
  destruct (can_toggle_only_reads self w) as [Hr _].
  destruct (reads_are_no_calls _ Hr) as (Hh & Hcl & Hw & _).
  unfold http_calls, cache_clears, warnings in *.
  rewrite !filter_app, Hh, Hw. rewrite length_app, Hcl.
  repeat split; reflexivity.
Qed.

(** C6: with [can_toggle] true, whatever response the PUT comes back
    with, whatever its status code, [_change_state] returns True and has
    invalidated the cache once. *)
Theorem change_state_ignores_put_status (state : value) (self : Switch.t)
        (w : world) (uuid : value) (d : dict) (n : Z)
        (code : Z) (text : string) :
  let url := device_url (toon w) uuid in
  let hdrs := Session._headers (toon w) in
  returned Switch.can_toggle (self, w) = Ok (VBool true) ->
  returned Switch.device_uuid (self, w) = Ok uuid ->
  requests_get_json w url hdrs = Ok (VDict d) ->
  py_int state = Ok n ->
  requests_put w url (put_body d n) hdrs = Ok (mkResponse code text) ->
  returned (Switch._change_state state) (self, w) = Ok (VBool true) /\
  cache_clears (emitted (Switch._change_state state) (self, w)) = 1.
Proof.
  intros url hdrs Hc Hu Hget Hint Hput.
  pose proof (write_run state self w uuid d n _
                Hc Hu Hget Hint Hput) as E.
  rewrite (emitted_logs _ _ _ _ _ E). unfold returned. rewrite E.
  split; [reflexivity|].
  destruct (truthy (Switch._device_uuid self)); reflexivity.
Qed.

End ChangeStateClaims.

Lemma change_state_get_put_clear_witness :
  let w := service (plug1_snapshot false 0 3) 200 in
  let url := "https://api.toon.eu/toon/v3/1/devices/uuid-1" in
  let hdrs := [("Authorization", "Bearer token")] in
  let body := [("devUUID", VStr "uuid-1"); ("name", VStr "plug1");
               ("currentState", VInt 1); ("isConnected", VInt 1)] in
  returned (@Switch._change_state scalar_builtins (VInt 1)) (Switch.__init__ "plug1", w)
    = Ok (VBool true) /\
  service_calls (emitted (@Switch._change_state scalar_builtins (VInt 1))
                         (Switch.__init__ "plug1", w)) =
    [HttpGet url hdrs; HttpPut url (VDict body) hdrs; ClearCache].
Proof.
  intros w url hdrs body.
  pose proof (@change_state_get_put_clear scalar_builtins (VInt 1)
                (Switch.__init__ "plug1") w (VStr "uuid-1") plug1_document 1
                (mkResponse 200 "{}")
                eq_refl eq_refl eq_refl eq_refl eq_refl) as (Hr & Hs & _).
  split; [exact Hr | exact Hs].
Defined.

Lemma change_state_refused_witness :
  let w := service (plug1_snapshot true 0 3) 200 in
  returned (@Switch._change_state scalar_builtins (VInt 1)) (Switch.__init__ "plug1", w)
    = Ok (VBool false) /\
  http_calls (emitted (@Switch._change_state scalar_builtins (VInt 1))
                      (Switch.__init__ "plug1", w)) = [].
Proof.
  intros w.
  pose proof (@change_state_refused scalar_builtins (VInt 1)
                (Switch.__init__ "plug1") w eq_refl) as (Hr & Hh & _).
  split; [exact Hr | exact Hh].
Defined.

Lemma change_state_ignores_put_status_witness :
  let w := service (plug1_snapshot false 0 3) 500 in
  returned (@Switch._change_state scalar_builtins (VInt 1)) (Switch.__init__ "plug1", w)
    = Ok (VBool true) /\
  cache_clears (emitted (@Switch._change_state scalar_builtins (VInt 1))
                        (Switch.__init__ "plug1", w)) = 1.
Proof.
  intros w.
  exact (@change_state_ignores_put_status scalar_builtins (VInt 1)
           (Switch.__init__ "plug1") w (VStr "uuid-1") plug1_document 1 500 "{}"
           eq_refl eq_refl eq_refl eq_refl eq_refl).
Defined.

Lemma status_on_off_witness :
  returned Switch.status
    (Switch.__init__ "plug1", service (plug1_snapshot false 0 3) 200) = Ok (VStr "off").
Proof.
  exact (proj2 (status_on_off (Switch.__init__ "plug1")
                  (service (plug1_snapshot false 0 3) 200) (VInt 0) eq_refl)).
Defined.

(** ** Every method is oblivious of the past *)

Lemma with_trace_same (w : world) : with_trace (trace w) w = w.
Proof. now destruct w. Qed.

Lemma logs_with_trace (evs : list event) (w : world) :
  logs evs w = with_trace (trace w ++ evs) w.
Proof.
  revert w. induction evs as [|e evs IH]; intros w; simpl.
  - rewrite app_nil_r. symmetry. apply with_trace_same.
  - unfold logs in IH. rewrite IH. unfold with_trace, log. simpl.
    now rewrite <- app_assoc.
Qed.

Section Oblivious.
Context {O : Type}.

Lemma oblivious_ret {A} (a : A) : oblivious (@ret O A a).
Proof.
  intros self w. exists (Ok a), self, []. intros t. now rewrite app_nil_r.
Qed.

Lemma oblivious_pure {A} (r : result A) : oblivious (@pure O A r).
Proof.
  intros self w. exists r, self, []. intros t. now rewrite app_nil_r.
Qed.

Lemma oblivious_get_self : oblivious (@get_self O).
Proof.
  intros self w. exists (Ok self), self, []. intros t. now rewrite app_nil_r.
Qed.

Lemma oblivious_put_self (o : O) : oblivious (put_self o).
Proof.
  intros self w. exists (Ok tt), o, []. intros t. unfold put_self. simpl.
  now rewrite app_nil_r.
Qed.

Lemma oblivious_get_toon : oblivious (@get_toon O).
Proof.
  intros self w. exists (Ok (toon w)), self, []. intros t.
  now rewrite app_nil_r.
Qed.

Lemma oblivious_emit (e : event) : oblivious (@emit O e).
Proof. intros self w. exists (Ok tt), self, [e]. reflexivity. Qed.

Lemma oblivious_toon_status (name : string) (config : bool) :
  oblivious (@toon_status O name config).
Proof.
  intros self w. exists (Ok (snapshot_of w)), self, [StatusRead name config].
  reflexivity.
Qed.

Lemma oblivious_http_get_json (url : string) (hdrs : headers) :
  oblivious (@http_get_json O url hdrs).
Proof.
  intros self w. exists (requests_get_json w url hdrs), self, [HttpGet url hdrs].
  reflexivity.
Qed.

Lemma oblivious_http_put (url : string) (data : value) (hdrs : headers) :
  oblivious (@http_put O url data hdrs).
Proof.
  intros self w.
  exists (requests_put w url data hdrs), self, [HttpPut url data hdrs].
  reflexivity.
Qed.

Lemma oblivious_bind {A B} (m : M O A) (k : A -> M O B) :
  oblivious m -> (forall a, oblivious (k a)) -> oblivious (bind m k).
Proof.
  intros Hm Hk self w.
  destruct (Hm self w) as (r & self' & evs & E).
  destruct r as [a|e].
  - destruct (Hk a self' w) as (r2 & self2 & evs2 & E2).
    exists r2, self2, (evs ++ evs2). intros t.
    unfold bind. rewrite E, E2. now rewrite app_assoc.
  - exists (Raise e), self', evs. intros t. unfold bind. now rewrite E.
Qed.

End Oblivious.

Create HintDb oblivious.
#[local] Hint Resolve oblivious_ret oblivious_pure oblivious_get_self
  oblivious_put_self oblivious_get_toon oblivious_emit oblivious_toon_status
  oblivious_http_get_json oblivious_http_put oblivious_bind : oblivious.
#[local] Hint Extern 2 (oblivious (if ?b then _ else _)) => destruct b : oblivious.

Lemma oblivious_get_value (name : string) (config : bool) :
  oblivious (Switch._get_value name config).
Proof. unfold Switch._get_value. auto 10 with oblivious. Qed.
#[local] Hint Resolve oblivious_get_value : oblivious.

Lemma oblivious_memo_property (a : memo_attr) : oblivious (memo_property a).
Proof.
  destruct a; simpl;
    unfold Switch.device_uuid, Switch.device_type, Switch.zwave_index,
      Switch.zwave_uuid;
    auto 10 with oblivious.
Qed.

Lemma oblivious_can_toggle : oblivious Switch.can_toggle.
Proof.
  unfold Switch.can_toggle, Switch.is_connected, Switch.is_locked.
  auto 10 with oblivious.
Qed.
#[local] Hint Resolve oblivious_can_toggle : oblivious.

Lemma oblivious_change_state `{Builtins} (state : value) :
  oblivious (Switch._change_state state).
Proof.
  unfold Switch._change_state.
  pose proof (oblivious_memo_property DeviceUuid) as Hu. simpl in Hu.
  auto 20 with oblivious.
Qed.

(** What obliviousness gives for a run from any world. *)
Lemma oblivious_run {O A} (m : M O A) (self : O) (w : world) (evs : list event) :
  oblivious m ->
  returned m (self, logs evs w) = returned m (self, w) /\
  self_after m (self, logs evs w) = self_after m (self, w) /\
  emitted m (self, logs evs w) = emitted m (self, w) /\
  world_after m (self, logs evs w) = logs (evs ++ emitted m (self, w)) w.
Proof.
  intros Hm. destruct (Hm self w) as (r & self' & new & E).
  pose proof (E (trace w)) as E0. rewrite with_trace_same in E0.
  pose proof (E (trace w ++ evs)) as E1. rewrite <- logs_with_trace in E1.
  assert (Hnew : emitted m (self, w) = new).
  { apply emitted_logs with (r := r) (self' := self').
    rewrite E0. simpl. now rewrite logs_with_trace. }
  unfold returned, self_after. rewrite E0, E1, Hnew. simpl.
  repeat split.
  - unfold emitted, world_after. rewrite E1. simpl.
    rewrite trace_logs, skipn_app, Nat.sub_diag, skipn_all. reflexivity.
  - unfold world_after. rewrite E1. simpl.
    now rewrite logs_with_trace, app_assoc.
Qed.

(** ** toggle, turn_on, turn_off *)

Lemma toggle_run `{Builtins} (self : Switch.t) (w : world) :
  Switch.toggle (self, w) =
  match lookup (Switch._name self) "currentState" false (snapshot_of w) with
  | Ok v => Switch._change_state (py_not v)
              (self, logs [StatusRead "currentState" false] w)
  | Raise e => (Raise e, (self, logs [StatusRead "currentState" false] w))
  end.
Proof.
  unfold Switch.toggle, Switch.current_state, bind at 1. rewrite get_value_run.
  now destruct (lookup _ _ _ _).
Qed.

Lemma toggle_after_read `{Builtins} (self : Switch.t) (w : world) (v : value) :
  returned Switch.current_state (self, w) = Ok v ->
  after_state_read Switch.toggle (Switch._change_state (py_not v)) (self, w).
Proof.
  unfold returned, Switch.current_state. rewrite get_value_run. simpl. intros Hv.
  pose proof (oblivious_run (Switch._change_state (py_not v)) self w
                [StatusRead "currentState" false] (oblivious_change_state _))
    as (Hr & Hs & _ & Hw).
  unfold after_state_read, returned, self_after, emitted, world_after in *.
  rewrite toggle_run, Hv, Hr, Hs, Hw. repeat split.
  rewrite trace_logs, skipn_app, Nat.sub_diag, skipn_all. reflexivity.
Qed.

(** C7: [toggle()] is [_change_state(not current_state)]: it reads
    [currentState] and then returns what that call returns, leaves the
    object as that call leaves it and makes the calls it makes; when
    [current_state == 1] the call is [_change_state(0)].  [turn_on()] and
    [turn_off()] are [_change_state(1)] and [_change_state(0)]. *)
Theorem toggle_turn_on_turn_off `{Builtins} (self : Switch.t) (w : world) :
  (forall v, returned Switch.current_state (self, w) = Ok v ->
     Switch.toggle (self, w) =
       Switch._change_state (py_not v) (self_after Switch.current_state (self, w),
                                        world_after Switch.current_state (self, w)) /\
     after_state_read Switch.toggle (Switch._change_state (py_not v)) (self, w)) /\
  (forall v, returned Switch.current_state (self, w) = Ok v ->
     py_eq_one v = true ->
     after_state_read Switch.toggle (Switch._change_state (VInt 0)) (self, w)) /\
  (forall e, returned Switch.current_state (self, w) = Raise e ->
     returned Switch.toggle (self, w) = Raise e) /\
  Switch.turn_on = Switch._change_state (VInt 1) /\
  Switch.turn_off = Switch._change_state (VInt 0).
Proof.
  split; [|split; [|split; [|split]]].
  - intros v Hv. split; [|now apply toggle_after_read].
    unfold returned, self_after, world_after, Switch.current_state in *.
    rewrite get_value_run in *. simpl in *. rewrite toggle_run, Hv. reflexivity.
  - intros v Hv Hone.
    assert (Hnot : py_not v = VBool false).
    { unfold py_not. destruct v; try discriminate; simpl in *.
      - now rewrite Hone.
      - apply Z.eqb_eq in Hone. now subst. }
    pose proof (toggle_after_read self w v Hv) as Ht. rewrite Hnot in Ht.
    exact Ht.
  - intros e. unfold returned, Switch.current_state. rewrite get_value_run, toggle_run.
    simpl. now intros ->.
  - reflexivity.
  - reflexivity.
Qed.

Lemma toggle_turn_on_turn_off_witness :
  let st := (Switch.__init__ "plug1", service (plug1_snapshot false 1 3) 200) in
  returned (@Switch.toggle scalar_builtins) st =
    returned (@Switch._change_state scalar_builtins (VInt 0)) st /\
  emitted (@Switch.toggle scalar_builtins) st =
    StatusRead "currentState" false ::
      emitted (@Switch._change_state scalar_builtins (VInt 0)) st.
Proof.
  intros st.
  pose proof (proj1 (proj2 (@toggle_turn_on_turn_off scalar_builtins
                              (Switch.__init__ "plug1")
                              (service (plug1_snapshot false 1 3) 200)))
                (VInt 1) eq_refl eq_refl) as (Hr & _ & He).
  split; [exact Hr | exact He].
Defined.

(** ** SmartPlug *)

Lemma plug_get_value_run (name : string) (config : bool) (self : SmartPlug.t)
      (w : world) :
  SmartPlug._get_value name config (self, w) =
  (lookup (Switch._name (SmartPlug.switch self)) name config (snapshot_of w),
   (self, logs [StatusRead name config] w)).
Proof.
  unfold SmartPlug._get_value, SmartPlug.inherited. simpl.
  rewrite get_value_run. now destruct self.
Qed.

Lemma usage_capable_run (self : SmartPlug.t) (w : world) :
  SmartPlug.usage_capable (self, w) =
  if SmartPlug.is_none (SmartPlug._usage_capable self) then
    match lookup (Switch._name (SmartPlug.switch self)) "usageCapable" true
                 (snapshot_of w) with
    | Ok v => (Ok (VBool (truthy v)),
               (SmartPlug.mk (SmartPlug.switch self) (VBool (truthy v)),
                logs [StatusRead "usageCapable" true] w))
    | Raise e => (Raise e, (self, logs [StatusRead "usageCapable" true] w))
    end
  else (Ok (SmartPlug._usage_capable self), (self, w)).
Proof.
  unfold SmartPlug.usage_capable, bind at 1. unfold get_self at 1. simpl fst.
  destruct (SmartPlug.is_none _); [|reflexivity].
  unfold bind. rewrite plug_get_value_run.
  destruct (lookup _ _ _ _) as [v|e]; [|reflexivity].
  unfold get_self, put_self, ret. simpl. now destruct (truthy v).
Qed.

Lemma gated_usage_returned (name : string) (self : SmartPlug.t) (w : world) :
  returned (gated_usage name) (self, w) =
  match returned SmartPlug.usage_capable (self, w) with
  | Ok capable =>
      if truthy capable
      then lookup (Switch._name (SmartPlug.switch self)) name false (snapshot_of w)
      else Ok (VInt 0)
  | Raise e => Raise e
  end.
Proof.
  unfold returned, gated_usage, bind. rewrite usage_capable_run.
  destruct (SmartPlug.is_none _).
  - destruct (lookup _ "usageCapable" _ _) as [v|e]; [|reflexivity]. simpl.
    destruct (truthy v); [|reflexivity].
    rewrite plug_get_value_run. reflexivity.
  - simpl. destruct (truthy _); [|reflexivity].
    rewrite plug_get_value_run. reflexivity.
Qed.

(** C8: when [usage_capable] is false, [average_usage], [current_usage]
    and [daily_usage] are 0 whatever the snapshot holds; when it is true
    they are the raw [avgUsage], [currentUsage] and [dayUsage] values of
    the device's status entry. *)
Theorem usage_gated (self : SmartPlug.t) (w : world) :
  (returned SmartPlug.usage_capable (self, w) = Ok (VBool false) ->
   returned SmartPlug.average_usage (self, w) = Ok (VInt 0) /\
   returned SmartPlug.current_usage (self, w) = Ok (VInt 0) /\
   returned SmartPlug.daily_usage (self, w) = Ok (VInt 0)) /\
  (returned SmartPlug.usage_capable (self, w) = Ok (VBool true) ->
   let raw name :=
     lookup (Switch._name (SmartPlug.switch self)) name false (snapshot_of w) in
   returned SmartPlug.average_usage (self, w) = raw "avgUsage" /\
   returned SmartPlug.current_usage (self, w) = raw "currentUsage" /\
   returned SmartPlug.daily_usage (self, w) = raw "dayUsage").
Proof.
  change SmartPlug.average_usage with (gated_usage "avgUsage").
  change SmartPlug.current_usage with (gated_usage "currentUsage").
  change SmartPlug.daily_usage with (gated_usage "dayUsage").
  rewrite !gated_usage_returned.
  split; intros ->; simpl; auto.
Qed.

Lemma usage_gated_witness :
  returned SmartPlug.average_usage
    (SmartPlug.__init__ "plug1", service (plug1_snapshot false 0 3) 200) = Ok (VInt 0) /\
  returned SmartPlug.daily_usage
    (SmartPlug.mk (Switch.__init__ "plug1") (VBool true),
     service (plug1_snapshot false 0 3) 200) = Ok (VInt 230).
Proof.
  split.
  - exact (proj1 (proj1 (usage_gated (SmartPlug.__init__ "plug1")
                           (service (plug1_snapshot false 0 3) 200)) eq_refl)).
  - exact (proj2 (proj2 (proj2 (usage_gated
                                  (SmartPlug.mk (Switch.__init__ "plug1") (VBool true))
                                  (service (plug1_snapshot false 0 3) 200)) eq_refl))).
Defined.

(** ** A device the snapshot does not know *)

Lemma refused_no_http `{Builtins} (state : value) (self : Switch.t) (w : world) :
  returned Switch.can_toggle (self, w) = Ok (VBool false) ->
  returned (Switch._change_state state) (self, w) = Ok (VBool false) /\
  http_calls (emitted (Switch._change_state state) (self, w)) = [].
Proof.
  intros Hc. pose proof (refusal_run state self w Hc) as E.
  rewrite (emitted_logs _ _ _ _ _ E). unfold returned. rewrite E.
  split; [reflexivity|].
  destruct (can_toggle_only_reads self w) as [Hr _].
  destruct (reads_are_no_calls _ Hr) as (Hh & _).
  unfold http_calls in *. now rewrite filter_app, Hh.
Qed.

(** C10: for a device named in neither collection, [is_connected] and
    [is_locked] are the boolean False, so [can_toggle] is False, and
    [toggle()], [turn_on()] and [turn_off()] return False without any
    HTTP call; [status] is "off". *)
Theorem unknown_device `{Builtins} (self : Switch.t) (w : world) :
  no_entry (Switch._name self) false (snapshot_of w) = true ->
  no_entry (Switch._name self) true (snapshot_of w) = true ->
  returned Switch.is_connected (self, w) = Ok (VBool false) /\
  returned Switch.is_locked (self, w) = Ok (VBool false) /\
  returned Switch.can_toggle (self, w) = Ok (VBool false) /\
  Forall (fun m : M Switch.t value =>
            returned m (self, w) = Ok (VBool false) /\
            http_calls (emitted m (self, w)) = [])
         [Switch.toggle; Switch.turn_on; Switch.turn_off] /\
  returned Switch.status (self, w) = Ok (VStr "off").
Proof.
  intros Hs Hc.
  assert (Ls : forall name, lookup (Switch._name self) name false (snapshot_of w) = Ok VNone)
    by (intros; now apply lookup_absent, no_entry_field_absent).
  assert (Lc : forall name, lookup (Switch._name self) name true (snapshot_of w) = Ok VNone)
    by (intros; now apply lookup_absent, no_entry_field_absent).
  assert (Hcan : returned Switch.can_toggle (self, w) = Ok (VBool false))
    by (unfold returned; rewrite can_toggle_run, Ls; reflexivity).
  split; [|split; [|split; [exact Hcan | split]]].
  - unfold returned. now rewrite is_connected_run, Ls.
  - unfold returned. now rewrite is_locked_run, Lc.
  - repeat constructor; try (now apply refused_no_http).
    + assert (Hv : returned Switch.current_state (self, w) = Ok VNone)
        by (unfold returned, Switch.current_state; now rewrite get_value_run, Ls).
      destruct (toggle_after_read self w VNone Hv) as (Hr & _).
      rewrite Hr. now apply refused_no_http.
    + assert (Hv : returned Switch.current_state (self, w) = Ok VNone)
        by (unfold returned, Switch.current_state; now rewrite get_value_run, Ls).
      destruct (toggle_after_read self w VNone Hv) as (_ & _ & He).
      rewrite He. now apply refused_no_http.
  - unfold returned. now rewrite status_run, Ls.
Qed.

Lemma unknown_device_witness :
  let st := (Switch.__init__ "plug1", service empty_snapshot 200) in
  returned Switch.is_connected st = Ok (VBool false) /\
  returned (@Switch.turn_on scalar_builtins) st = Ok (VBool false) /\
  returned Switch.status st = Ok (VStr "off").
Proof.
  intros st.
  pose proof (@unknown_device scalar_builtins (Switch.__init__ "plug1")
                (service empty_snapshot 200) eq_refl eq_refl)
    as (Hc & _ & _ & Hm & Hst).
  split; [exact Hc | split; [|exact Hst]].
  apply Forall_inv_tail, Forall_inv in Hm. exact (proj1 Hm).
Defined.

(** ** Absent data *)

Lemma inherited_returned {A} (m : M Switch.t A) (self : SmartPlug.t) (w : world) :
  returned (SmartPlug.inherited m) (self, w) = returned m (SmartPlug.switch self, w).
Proof.
  unfold returned, SmartPlug.inherited. simpl.
  destruct (m (SmartPlug.switch self, w)) as [r [sw w']]. reflexivity.
Qed.

(** A well-formed collection is searched without an exception, whatever
    the field asked for. *)
Lemma lookup_well_formed_ok (self_name name : string) (config : bool)
      (snapshot : value) :
  well_formed config snapshot = true ->
  exists v, lookup self_name name config snapshot = Ok v.
Proof.
  unfold well_formed.
  destruct (collection config snapshot) as [items|] eqn:Hc; [|discriminate].
  intros Hwf. rewrite (lookup_well_formed _ _ _ _ _ Hc Hwf). eauto.
Qed.

(** On a snapshot whose configuration collection is well-formed
    [usage_capable] returns, populated or not. *)
Lemma usage_capable_returns (plug : SmartPlug.t) (w : world) :
  well_formed true (snapshot_of w) = true ->
  exists capable, returned SmartPlug.usage_capable (plug, w) = Ok capable.
Proof.
  intros Hwf. unfold returned. rewrite usage_capable_run.
  destruct (SmartPlug.is_none _); [|simpl; eauto].
  destruct (lookup_well_formed_ok (Switch._name (SmartPlug.switch plug))
              "usageCapable" true _ Hwf) as [v ->].
  simpl. eauto.
Qed.

(** C5, as the code has it: in a well-formed snapshot where the queried
    collection has no entry for the device, or has one without the
    requested field, no read property raises; the raw ones return None,
    the boolean ones False, [status] "off", the usage figures None or 0
    as [usage_capable] says, and a memoized one returns the sentinel
    (None, False for [usage_capable]) as long as it is not populated: an
    identifier attribute that is falsy, a [_usage_capable] that is None.
    A populated one keeps returning the memoized value, whatever the
    snapshot.  A property inherited by a SmartPlug returns what it
    returns on the Switch part. *)
Theorem absent_reads (self : Switch.t) (plug : SmartPlug.t) (w : world) :
  let absent name config := field_absent (Switch._name self) name config (snapshot_of w) in
  let absent' name config :=
    field_absent (Switch._name (SmartPlug.switch plug)) name config (snapshot_of w) in
  Forall (fun p => let '(m, name, config) := p in
            absent name config = true -> returned m (self, w) = Ok VNone)
         switch_raw_reads /\
  Forall (fun p => let '(m, name, config) := p in
            absent name config = true -> returned m (self, w) = Ok (VBool false))
         switch_bool_reads /\
  (absent "currentState" false = true ->
   returned Switch.status (self, w) = Ok (VStr "off")) /\
  (absent "isConnected" false = true ->
   returned Switch.can_toggle (self, w) = Ok (VBool false)) /\
  (forall a, truthy (memo_get a self) = false ->
     absent (memo_field a) (memo_config a) = true ->
     returned (memo_property a) (self, w) = Ok VNone) /\
  (forall a, truthy (memo_get a self) = true ->
     returned (memo_property a) (self, w) = Ok (memo_get a self)) /\
  Forall (fun p => let '(m, name, config) := p in
            absent' name config = true -> returned m (plug, w) = Ok VNone)
         plug_raw_reads /\
  (SmartPlug.is_none (SmartPlug._usage_capable plug) = true ->
   absent' "usageCapable" true = true ->
   returned SmartPlug.usage_capable (plug, w) = Ok (VBool false)) /\
  (SmartPlug.is_none (SmartPlug._usage_capable plug) = false ->
   returned SmartPlug.usage_capable (plug, w) = Ok (SmartPlug._usage_capable plug)) /\
  Forall (fun p => let '(m, name) := p in
            absent' name false = true ->
            (forall capable,
               returned SmartPlug.usage_capable (plug, w) = Ok capable ->
               returned m (plug, w) = Ok (if truthy capable then VNone else VInt 0)) /\
            (well_formed true (snapshot_of w) = true ->
             exists capable,
               returned SmartPlug.usage_capable (plug, w) = Ok capable /\
               returned m (plug, w) = Ok (if truthy capable then VNone else VInt 0)) /\
            (SmartPlug.is_none (SmartPlug._usage_capable plug) = true ->
             absent' "usageCapable" true = true ->
             returned m (plug, w) = Ok (VInt 0)))
         plug_gated_reads /\
  (forall m : M Switch.t value,
     returned (SmartPlug.inherited m) (plug, w) = returned m (SmartPlug.switch plug, w)).
Proof.
  intros absent absent'. subst absent absent'. cbv beta.
  assert (Hgated : forall name,
            field_absent (Switch._name (SmartPlug.switch plug)) name false
                         (snapshot_of w) = true ->
            forall capable,
              returned SmartPlug.usage_capable (plug, w) = Ok capable ->
              returned (gated_usage name) (plug, w) =
              Ok (if truthy capable then VNone else VInt 0)).
  { intros name Ha capable Hc.
    rewrite gated_usage_returned, Hc, (lookup_absent _ _ _ _ Ha).
    now destruct (truthy capable). }
  assert (Hfresh : SmartPlug.is_none (SmartPlug._usage_capable plug) = true ->
            field_absent (Switch._name (SmartPlug.switch plug)) "usageCapable" true
                         (snapshot_of w) = true ->
            returned SmartPlug.usage_capable (plug, w) = Ok (VBool false)).
  { intros Hm Ha. unfold returned.
    now rewrite usage_capable_run, Hm, (lookup_absent _ _ _ _ Ha). }
  repeat match goal with |- _ /\ _ => split end.
  - repeat constructor; intros Ha; unfold returned, Switch.current_state, Light.rgb_color;
      now rewrite get_value_run, (lookup_absent _ _ _ _ Ha).
  - repeat constructor; intros Ha; unfold returned;
      unfold Switch.is_connected, Switch.is_locked, Switch.in_switch_all_group,
        Switch.in_switch_schedule;
      now rewrite bool_property_run, (lookup_absent _ _ _ _ Ha).
  - intros Ha. unfold returned. now rewrite status_run, (lookup_absent _ _ _ _ Ha).
  - intros Ha. unfold returned. now rewrite can_toggle_run, (lookup_absent _ _ _ _ Ha).
  - intros a Hm Ha. unfold returned.
    now rewrite memo_property_run, Hm, (lookup_absent _ _ _ _ Ha).
  - intros a Hm. unfold returned. now rewrite memo_property_run, Hm.
  - repeat constructor; intros Ha; unfold returned, SmartPlug.network_health_state,
      SmartPlug.quantity_graph_uuid, SmartPlug.flow_graph_uuid;
      now rewrite plug_get_value_run, (lookup_absent _ _ _ _ Ha).
  - exact Hfresh.
  - intros Hm. unfold returned. now rewrite usage_capable_run, Hm.
  - change SmartPlug.average_usage with (gated_usage "avgUsage").
    change SmartPlug.current_usage with (gated_usage "currentUsage").
    change SmartPlug.daily_usage with (gated_usage "dayUsage").
    unfold plug_gated_reads.
    apply Forall_cons; [|apply Forall_cons; [|apply Forall_cons; [|apply Forall_nil]]];
      intros Ha; (split; [|split]).
    all: try (intros capable Hc; now apply Hgated).
    all: try (intros Hwf; destruct (usage_capable_returns plug w Hwf) as [capable Hc];
              exists capable; split; [exact Hc | now apply Hgated]).
    all: intros Hm Hu; exact (Hgated _ Ha (VBool false) (Hfresh Hm Hu)).
  - intros m. apply inherited_returned.
Qed.

Lemma absent_reads_witness :
  let st := (Switch.__init__ "plug1", service empty_snapshot 200) in
  let used := Switch.mk "plug1" VNone (VInt 0) VNone (VStr "uuid-1") in
  returned Switch.current_state st = Ok VNone /\
  returned Switch.is_locked st = Ok (VBool false) /\
  returned Switch.device_uuid st = Ok VNone /\
  returned Switch.zwave_index (used, service empty_snapshot 200) = Ok VNone /\
  returned Switch.device_uuid (used, service empty_snapshot 200) = Ok (VStr "uuid-1") /\
  returned SmartPlug.average_usage (SmartPlug.__init__ "plug1", service empty_snapshot 200)
    = Ok (VInt 0) /\
  (exists capable,
     returned SmartPlug.usage_capable
       (SmartPlug.mk (Switch.__init__ "plug1") (VBool true), service empty_snapshot 200)
       = Ok capable /\
     returned SmartPlug.daily_usage
       (SmartPlug.mk (Switch.__init__ "plug1") (VBool true), service empty_snapshot 200)
       = Ok (if truthy capable then VNone else VInt 0)).
Proof.
  intros st used.
  pose proof (absent_reads (Switch.__init__ "plug1") (SmartPlug.__init__ "plug1")
                (service empty_snapshot 200))
    as (Hraw & Hbool & _ & _ & Hmemo & _ & _ & _ & _ & Hgated & _).
  pose proof (absent_reads used (SmartPlug.mk (Switch.__init__ "plug1") (VBool true))
                (service empty_snapshot 200))
    as (_ & _ & _ & _ & Hfalsy & Hkept & _ & _ & _ & Hgated' & _).
  split; [|split; [|split; [|split; [|split; [|split]]]]].
  - exact (Forall_inv Hraw eq_refl).
  - exact (Forall_inv (Forall_inv_tail Hbool) eq_refl).
  - exact (Hmemo DeviceUuid eq_refl eq_refl).
  - exact (Hfalsy ZwaveIndex eq_refl eq_refl).
  - exact (Hkept DeviceUuid eq_refl).
  - exact (proj2 (proj2 (Forall_inv Hgated eq_refl)) eq_refl eq_refl).
  - exact (proj1 (proj2 (Forall_inv (Forall_inv_tail (Forall_inv_tail Hgated')) eq_refl))
             eq_refl).
Defined.

(** The claim of C5 as it is worded fails for a memoized property: a
    fresh [plug1] learns its uuid from a first snapshot, the session then
    replaces the snapshot by one without any device, and [device_uuid]
    still answers with the uuid instead of None. *)
Lemma memoized_uuid_outlives_entry :
  let st0 := (Switch.__init__ "plug1", service (plug1_snapshot false 0 3) 200) in
  let st1 := snd (Switch.device_uuid st0) in
  let st2 := (fst st1, replace_snapshot empty_snapshot (snd st1)) in
  no_entry (Switch._name (fst st2)) false (snapshot_of (snd st2)) = true /\
  returned Switch.device_uuid st2 = Ok (VStr "uuid-1") /\
  returned Switch.device_uuid st2 <> Ok VNone.
Proof.
  split; [reflexivity | split; [reflexivity | discriminate]].
Qed.

(** ** Lazily memoized fields *)

Lemma access_run (f : lazy_field) (self : SmartPlug.t) (w : world) :
  access f (self, w) =
  if populated f self then (Ok (stored f self), (self, w))
  else
    match lookup (Switch._name (SmartPlug.switch self)) (lazy_name f)
                 (lazy_config f) (snapshot_of w) with
    | Ok v => (Ok (kept f v),
               (store f (kept f v) self, logs [StatusRead (lazy_name f) (lazy_config f)] w))
    | Raise e => (Raise e, (self, logs [StatusRead (lazy_name f) (lazy_config f)] w))
    end.
Proof.
  destruct f as [a|]; simpl.
  - unfold SmartPlug.inherited. simpl. rewrite memo_property_run.
    destruct self as [sw uc]. simpl.
    destruct (truthy (memo_get a sw)); [reflexivity|].
    destruct (lookup _ _ _ _); reflexivity.
  - rewrite usage_capable_run.
    destruct (SmartPlug.is_none _); simpl; [|reflexivity].
    destruct (lookup _ _ _ _); reflexivity.
Qed.

Lemma lookups_app (f : lazy_field) (evs evs' : list event) :
  lookups f (evs ++ evs') = lookups f evs + lookups f evs'.
Proof. unfold lookups. now rewrite filter_app, length_app. Qed.

Lemma lookups_one (f : lazy_field) (e : event) :
  lookups f [e] = if is_lookup f e then 1 else 0.
Proof. unfold lookups. simpl. now destruct (is_lookup f e). Qed.

Lemma stored_store_other (f g : lazy_field) (v : value) (self : SmartPlug.t) :
  f <> g -> stored f (store g v self) = stored f self.
Proof.
  destruct f as [[]|], g as [[]|]; intros Hne; try reflexivity; contradiction.
Qed.

Lemma stored_store_same (f : lazy_field) (v : value) (self : SmartPlug.t) :
  stored f (store f v self) = v.
Proof. destruct f as [[]|]; reflexivity. Qed.

Lemma populated_stored (f : lazy_field) (self self' : SmartPlug.t) :
  stored f self' = stored f self -> populated f self' = populated f self.
Proof. unfold populated. now intros ->. Qed.

Lemma is_lookup_other (f g : lazy_field) :
  f <> g -> is_lookup f (StatusRead (lazy_name g) (lazy_config g)) = false.
Proof.
  destruct f as [[]|], g as [[]|]; intros Hne; try reflexivity; contradiction.
Qed.

Lemma is_lookup_same (f : lazy_field) :
  is_lookup f (StatusRead (lazy_name f) (lazy_config f)) = true.
Proof. destruct f as [[]|]; reflexivity. Qed.

Lemma lazy_field_eq_dec (f g : lazy_field) : {f = g} + {f <> g}.
Proof. decide equality. decide equality. Qed.

(** A populated field survives any step: no lookup for it, the same
    stored value. *)
Lemma step_keeps_populated (f : lazy_field) (a : action) (st : SmartPlug.t * world) :
  populated f (fst st) = true ->
  stored f (fst (step a st)) = stored f (fst st) /\
  lookups f (trace (snd (step a st))) = lookups f (trace (snd st)).
Proof.
  destruct st as [self w]. intros Hp. destruct a as [g|snapshot]; simpl.
  - rewrite access_run.
    destruct (lazy_field_eq_dec f g) as [<-|Hne].
    + simpl in Hp. rewrite Hp. auto.
    + destruct (populated g self); [auto|].
      destruct (lookup _ _ _ _) as [v|e]; cbn [fst snd];
        rewrite trace_logs, lookups_app, lookups_one,
          (is_lookup_other f g Hne), Nat.add_0_r.
      * split; [now apply stored_store_other | reflexivity].
      * auto.
  - auto.
Qed.

Lemma run_keeps_populated (f : lazy_field) (acts : list action)
      (st : SmartPlug.t * world) :
  populated f (fst st) = true ->
  stored f (fst (run acts st)) = stored f (fst st) /\
  lookups f (trace (snd (run acts st))) = lookups f (trace (snd st)).
Proof.
  revert st. induction acts as [|a acts IH]; intros st Hp; simpl; [auto|].
  destruct (step_keeps_populated f a st Hp) as [Hs Hl].
  assert (Hp' : populated f (fst (step a st)) = true)
    by (now rewrite (populated_stored _ _ _ Hs)).
  destruct (IH (step a st) Hp') as [Hs' Hl'].
  split; congruence.
Qed.

(** C4, as the code has it: once a lazily memoized field is populated
    (an identifier holds a truthy value, [_usage_capable] holds a
    boolean), no sequence of accesses and snapshot replacements looks it
    up again, and every access returns the stored value; an access that
    returns a truthy value, or any value for [usage_capable], populates
    the field; while the attribute holds None an access looks the
    snapshot up. *)
Theorem lazy_field_fetched_until_populated (f : lazy_field)
        (st : SmartPlug.t * world) :
  (populated f (fst st) = true ->
   forall acts,
     lookups f (trace (snd (run acts st))) = lookups f (trace (snd st)) /\
     stored f (fst (run acts st)) = stored f (fst st) /\
     access f (run acts st) = (Ok (stored f (fst st)), run acts st)) /\
  (forall v, returned (access f) st = Ok v ->
     f = UsageCapable \/ truthy v = true ->
     populated f (fst (step (Access f) st)) = true /\
     stored f (fst (step (Access f) st)) = v) /\
  (stored f (fst st) = VNone ->
   lookups f (trace (snd (step (Access f) st))) = S (lookups f (trace (snd st)))).
Proof.
  split; [|split].
  - intros Hp acts. destruct (run_keeps_populated f acts st Hp) as [Hs Hl].
    split; [exact Hl | split; [exact Hs|]].
    destruct (run acts st) as [self' w'] eqn:E. simpl in Hs.
    rewrite access_run, (populated_stored _ _ _ Hs), Hp, Hs. reflexivity.
  - destruct st as [self w]. intros v Hv Hk. unfold returned in Hv.
    simpl step. rewrite access_run in *.
    destruct (populated f self) eqn:Hp.
    + simpl in *. split; congruence.
    + destruct (lookup _ _ _ _) as [x|e]; [|discriminate].
      simpl in *. injection Hv as Hv. rewrite stored_store_same.
      split; [|exact Hv].
      unfold populated. rewrite stored_store_same.
      destruct f as [a|]; simpl in *.
      * destruct Hk as [Hk|Hk]; [discriminate | congruence].
      * now subst v.
  - destruct st as [self w]. simpl. intros Hn. rewrite access_run.
    assert (Hp : populated f self = false)
      by (unfold populated; rewrite Hn; now destruct f).
    rewrite Hp.
    destruct (lookup _ _ _ _); cbn [fst snd];
      rewrite trace_logs, lookups_app, lookups_one, is_lookup_same; lia.
Qed.

Lemma lazy_field_fetched_until_populated_witness :
  let st0 := (SmartPlug.__init__ "plug1", service (plug1_snapshot false 0 3) 200) in
  let st1 := step (Access (Memo DeviceUuid)) st0 in
  let acts := [Replace empty_snapshot; Access (Memo DeviceUuid);
               Access UsageCapable; Access (Memo DeviceUuid)] in
  lookups (Memo DeviceUuid) (trace (snd st1)) = 1 /\
  lookups (Memo DeviceUuid) (trace (snd (run acts st1))) = 1 /\
  returned (access (Memo DeviceUuid)) (run acts st1) = Ok (VStr "uuid-1").
Proof.
  intros st0 st1 acts.
  pose proof (lazy_field_fetched_until_populated (Memo DeviceUuid) st0)
    as (_ & Hpop & Hnone).
  pose proof (Hnone eq_refl) as H1.
  pose proof (Hpop (VStr "uuid-1") eq_refl (or_intror eq_refl)) as [Hp _].
  pose proof (proj1 (lazy_field_fetched_until_populated (Memo DeviceUuid) st1) Hp acts)
    as (Hl & _ & Ha).
  split; [exact H1 | split].
  - rewrite Hl. exact H1.
  - unfold returned. rewrite Ha. reflexivity.
Defined.

(** The claim of C4 as it is worded fails: while the snapshot has no
    entry for the device the lookup yields None, the attribute stays
    None, and two accesses of [device_uuid] look the snapshot up
    twice. *)
Lemma absent_uuid_looked_up_twice :
  let st0 := (SmartPlug.__init__ "plug1", service empty_snapshot 200) in
  let acts := [Access (Memo DeviceUuid); Access (Memo DeviceUuid)] in
  lookups (Memo DeviceUuid) (trace (snd st0)) = 0 /\
  lookups (Memo DeviceUuid) (trace (snd (run acts st0))) = 2 /\
  ~ lookups (Memo DeviceUuid) (trace (snd (run acts st0))) <= 1.
Proof.
  split; [reflexivity | split; [reflexivity|]].
  change (lookups (Memo DeviceUuid) _) with 2. lia.
Qed.

(** ** Footprints *)

Section Footprint.
Context {O : Type} (R : O -> O -> Prop) (P : event -> bool).
Hypothesis R_refl : forall o, R o o.
Hypothesis R_trans : forall a b c, R a b -> R b c -> R a c.

Lemma footprint_ret {A} (a : A) : footprint R P (@ret O A a).
Proof.
  intros self w. exists (Ok a), self, []. repeat split; auto.
  intros t. now rewrite app_nil_r.
Qed.

Lemma footprint_pure {A} (r : result A) : footprint R P (@pure O A r).
Proof.
  intros self w. exists r, self, []. repeat split; auto.
  intros t. now rewrite app_nil_r.
Qed.

Lemma footprint_get_self : footprint R P (@get_self O).
Proof.
  intros self w. exists (Ok self), self, []. repeat split; auto.
  intros t. now rewrite app_nil_r.
Qed.

Lemma footprint_get_toon : footprint R P (@get_toon O).
Proof.
  intros self w. exists (Ok (toon w)), self, []. repeat split; auto.
  intros t. now rewrite app_nil_r.
Qed.

Lemma footprint_emit (e : event) : P e = true -> footprint R P (@emit O e).
Proof.
  intros He self w. exists (Ok tt), self, [e]. repeat split; auto.
  simpl. now rewrite He.
Qed.

Lemma footprint_toon_status (name : string) (config : bool) :
  P (StatusRead name config) = true ->
  footprint R P (@toon_status O name config).
Proof.
  intros He self w. exists (Ok (snapshot_of w)), self, [StatusRead name config].
  repeat split; auto. simpl. now rewrite He.
Qed.

Lemma footprint_http_get_json (url : string) (hdrs : headers) :
  P (HttpGet url hdrs) = true -> footprint R P (@http_get_json O url hdrs).
Proof.
  intros He self w.
  exists (requests_get_json w url hdrs), self, [HttpGet url hdrs].
  repeat split; auto. simpl. now rewrite He.
Qed.

Lemma footprint_http_put (url : string) (data : value) (hdrs : headers) :
  P (HttpPut url data hdrs) = true -> footprint R P (@http_put O url data hdrs).
Proof.
  intros He self w.
  exists (requests_put w url data hdrs), self, [HttpPut url data hdrs].
  repeat split; auto. simpl. now rewrite He.
Qed.

(** [self._x = v]: the object read and put back changed. *)
Lemma footprint_modify (f : O -> O) :
  (forall o, R o (f o)) ->
  footprint R P (bind get_self (fun self => put_self (f self))).
Proof.
  intros Hf self w. exists (Ok tt), (f self), []. repeat split; auto.
  intros t. unfold bind, get_self, put_self. simpl. now rewrite app_nil_r.
Qed.

Lemma footprint_bind {A B} (m : M O A) (k : A -> M O B) :
  footprint R P m -> (forall a, footprint R P (k a)) -> footprint R P (bind m k).
Proof.
  intros Hm Hk self w.
  destruct (Hm self w) as (r & self' & evs & HR & HP & E).
  destruct r as [a|e].
  - destruct (Hk a self' w) as (r2 & self2 & evs2 & HR2 & HP2 & E2).
    exists r2, self2, (evs ++ evs2). repeat split; eauto.
    + rewrite forallb_app, HP, HP2. reflexivity.
    + intros t. unfold bind. rewrite E, E2. now rewrite app_assoc.
  - exists (Raise e), self', evs. repeat split; auto.
    intros t. unfold bind. now rewrite E.
Qed.

(** What a footprint says of a run. *)
Lemma footprint_run {A} (m : M O A) (self : O) (w : world) :
  footprint R P m ->
  R self (self_after m (self, w)) /\ forallb P (emitted m (self, w)) = true.
Proof.
  intros Hm. destruct (Hm self w) as (r & self' & evs & HR & HP & E).
  pose proof (E (trace w)) as E0. rewrite with_trace_same in E0.
  unfold self_after, emitted, world_after. rewrite E0. simpl.
  rewrite skipn_app, Nat.sub_diag, skipn_all. simpl. auto.
Qed.

End Footprint.

(** A method inherited by a SmartPlug has the footprint it has on the
    Switch part. *)
Lemma footprint_inherited {A} (R : Switch.t -> Switch.t -> Prop)
      (R' : SmartPlug.t -> SmartPlug.t -> Prop) (P : event -> bool)
      (m : M Switch.t A) :
  (forall plug sw, R (SmartPlug.switch plug) sw ->
                   R' plug (SmartPlug.mk sw (SmartPlug._usage_capable plug))) ->
  footprint R P m -> footprint R' P (SmartPlug.inherited m).
Proof.
  intros HR Hm self w.
  destruct (Hm (SmartPlug.switch self) w) as (r & sw & evs & Hsw & HP & E).
  exists r, (SmartPlug.mk sw (SmartPlug._usage_capable self)), evs.
  repeat split; auto.
  intros t. unfold SmartPlug.inherited. simpl. now rewrite E.
Qed.

(** Goes through a method made of the primitives, given the proofs that
    the relation is a preorder; what an assignment to an attribute does
    to the relation is left to [side]. *)
Ltac footprint_steps refl trans side :=
  repeat lazymatch goal with
    | |- footprint _ _ (bind get_self (fun s => put_self _)) =>
        apply footprint_modify; intro; side
    | |- footprint _ _ (bind _ _) => apply (footprint_bind _ _ trans); [|intro]
    | |- footprint _ _ (ret _) => apply (footprint_ret _ _ refl)
    | |- footprint _ _ (pure _) => apply (footprint_pure _ _ refl)
    | |- footprint _ _ get_self => apply (footprint_get_self _ _ refl)
    | |- footprint _ _ get_toon => apply (footprint_get_toon _ _ refl)
    | |- footprint _ _ (emit _) => apply (footprint_emit _ _ refl); reflexivity
    | |- footprint _ _ (toon_status _ _) =>
        apply (footprint_toon_status _ _ refl); reflexivity
    | |- footprint _ _ (http_get_json _ _) =>
        apply (footprint_http_get_json _ _ refl); reflexivity
    | |- footprint _ _ (http_put _ _ _) =>
        apply (footprint_http_put _ _ refl); reflexivity
    | |- footprint _ _ (if ?b then _ else _) => destruct b
    | |- footprint _ _ (let _ := _ in _) => cbv zeta
    end.

Ltac unfold_switch :=
  unfold Switch.toggle, Switch.turn_on, Switch.turn_off, Switch._change_state,
    Switch.status, Switch.can_toggle, Switch.name, Light.rgb_color,
    Switch.device_uuid, Switch.device_type, Switch.zwave_index, Switch.zwave_uuid,
    Switch.is_connected, Switch.is_locked, Switch.in_switch_all_group,
    Switch.in_switch_schedule, Switch.current_state, Switch._get_value.

Lemma eq_trans_obj {O} (a b c : O) : a = b -> b = c -> a = c.
Proof. congruence. Qed.

Lemma same_name_refl (self : Switch.t) : same_name self self.
Proof. reflexivity. Qed.

Lemma same_name_trans (a b c : Switch.t) :
  same_name a b -> same_name b c -> same_name a c.
Proof. unfold same_name. congruence. Qed.

Lemma same_but_uuid_refl (self : Switch.t) : same_but_uuid self self.
Proof. repeat split. Qed.

Lemma same_but_uuid_trans (a b c : Switch.t) :
  same_but_uuid a b -> same_but_uuid b c -> same_but_uuid a c.
Proof.
  unfold same_but_uuid. intros (?&?&?&?) (?&?&?&?). repeat split; congruence.
Qed.

Lemma plain_reads_footprint :
  Forall (footprint (fun a b : Switch.t => a = b) is_status_read) switch_plain_reads.
Proof.
  unfold switch_plain_reads. repeat constructor; unfold_switch;
    footprint_steps (@eq_refl Switch.t) (@eq_trans_obj Switch.t) idtac.
Qed.

(** X1: the properties that keep nothing leave the Switch object exactly
    as it was and call nothing but [toon.status]: no HTTP request, no
    cache invalidation, no log line, whether they return or raise. *)
Theorem plain_reads_only_read (self : Switch.t) (w : world) :
  Forall (fun m : M Switch.t value =>
            self_after m (self, w) = self /\
            forallb is_status_read (emitted m (self, w)) = true)
         switch_plain_reads.
Proof.
  eapply Forall_impl; [|exact plain_reads_footprint].
  intros m Hm. destruct (footprint_run _ _ m self w Hm) as [Hs He].
  split; [now symmetry | exact He].
Qed.

Ltac unfold_plug :=
  unfold SmartPlug.average_usage, SmartPlug.current_usage, SmartPlug.daily_usage,
    SmartPlug.network_health_state, SmartPlug.quantity_graph_uuid,
    SmartPlug.flow_graph_uuid, SmartPlug.usage_capable.

Lemma same_switch_refl (self : SmartPlug.t) : same_switch self self.
Proof. reflexivity. Qed.

Lemma same_switch_trans (a b c : SmartPlug.t) :
  same_switch a b -> same_switch b c -> same_switch a c.
Proof. unfold same_switch. congruence. Qed.

Lemma get_value_footprint (name : string) (config : bool) :
  footprint (fun a b : Switch.t => a = b) is_status_read
            (Switch._get_value name config).
Proof.
  unfold Switch._get_value.
  footprint_steps (@eq_refl Switch.t) (@eq_trans_obj Switch.t) idtac.
Qed.

Lemma plug_get_value_footprint (name : string) (config : bool) :
  footprint same_switch is_status_read (SmartPlug._get_value name config).
Proof.
  unfold SmartPlug._get_value.
  apply footprint_inherited with (R := fun a b : Switch.t => a = b).
  - intros plug sw <-. reflexivity.
  - apply get_value_footprint.
Qed.

Lemma actions_footprint `{Builtins} (state : value) :
  Forall (footprint same_but_uuid any_event) (switch_actions state).
Proof.
  unfold switch_actions. repeat constructor; unfold_switch;
    footprint_steps same_but_uuid_refl same_but_uuid_trans
                    ltac:(now (unfold same_but_uuid)).
Qed.

Lemma memo_reads_footprint :
  Forall (footprint same_name is_status_read) switch_memo_reads.
Proof.
  unfold switch_memo_reads. repeat constructor; unfold_switch;
    footprint_steps same_name_refl same_name_trans ltac:(reflexivity).
Qed.

Lemma plug_reads_footprint :
  Forall (footprint same_switch is_status_read) plug_reads.
Proof.
  pose proof plug_get_value_footprint as G.
  unfold plug_reads. repeat constructor; unfold_plug;
    footprint_steps same_switch_refl same_switch_trans ltac:(reflexivity);
    apply G.
Qed.

(** X2: the name given at construction is never changed: every property
    and every method of a Switch leaves [_name] as it is, whether it
    returns or raises. *)
Theorem name_is_immutable `{Builtins} (state : value) (self : Switch.t) (w : world) :
  Forall (fun m : M Switch.t value =>
            Switch._name (self_after m (self, w)) = Switch._name self)
         (switch_plain_reads ++ switch_memo_reads ++ switch_actions state).
Proof.
  rewrite !Forall_app. split; [|split].
  - eapply Forall_impl; [|exact plain_reads_footprint]. intros m Hm.
    destruct (footprint_run _ _ m self w Hm) as [<- _]. reflexivity.
  - eapply Forall_impl; [|exact memo_reads_footprint]. intros m Hm.
    exact (proj1 (footprint_run _ _ m self w Hm)).
  - eapply Forall_impl; [|exact (actions_footprint state)]. intros m Hm.
    exact (proj1 (proj1 (footprint_run _ _ m self w Hm))).
Qed.

(** X3: [_change_state], [toggle], [turn_on] and [turn_off] assign no
    attribute of the Switch other than [_device_uuid], on every path. *)
Theorem actions_touch_only_uuid `{Builtins} (state : value) (self : Switch.t)
        (w : world) :
  Forall (fun m : M Switch.t value => same_but_uuid self (self_after m (self, w)))
         (switch_actions state).
Proof.
  eapply Forall_impl; [|exact (actions_footprint state)]. intros m Hm.
  exact (proj1 (footprint_run _ _ m self w Hm)).
Qed.

(** X4: the memoizing properties of a Switch and the properties a
    SmartPlug adds call nothing but [toon.status]; the SmartPlug ones
    leave the inherited attributes as they are. *)
Theorem memo_and_plug_reads_only_read (self : Switch.t) (plug : SmartPlug.t)
        (w : world) :
  Forall (fun m : M Switch.t value =>
            forallb is_status_read (emitted m (self, w)) = true)
         switch_memo_reads /\
  Forall (fun m : M SmartPlug.t value =>
            SmartPlug.switch (self_after m (plug, w)) = SmartPlug.switch plug /\
            forallb is_status_read (emitted m (plug, w)) = true)
         plug_reads.
Proof.
  split.
  - eapply Forall_impl; [|exact memo_reads_footprint]. intros m Hm.
    exact (proj2 (footprint_run _ _ m self w Hm)).
  - eapply Forall_impl; [|exact plug_reads_footprint]. intros m Hm.
    exact (footprint_run _ _ m plug w Hm).
Qed.

(** ** _get_value on the snapshots it can meet *)

Lemma lookup_collection (self_name name : string) (config : bool)
      (snapshot : value) (items : list value) :
  collection config snapshot = Some items ->
  lookup self_name name config snapshot = Switch.next_matching self_name name items.
Proof.
  unfold collection, lookup. intros Hc.
  destruct snapshot; try discriminate. simpl.
  destruct (dict_get (collection_key config) entries); try discriminate. simpl.
  destruct (dict_get "device" entries0); try discriminate. simpl.
  now injection Hc as ->.
Qed.

Lemma next_matching_skip (self_name name : string) (pre rest : list value) :
  forallb is_entry pre = true ->
  existsb (entry_named self_name) pre = false ->
  Switch.next_matching self_name name (pre ++ rest) =
  Switch.next_matching self_name name rest.
Proof.
  induction pre as [|item pre IH]; simpl; [reflexivity|].
  intros Hwf Hno. apply andb_prop in Hwf. destruct Hwf as [Hi Hwf].
  apply orb_false_elim in Hno. destruct Hno as [Hn Hno].
  destruct item; try discriminate. simpl in *. rewrite Hn. now apply IH.
Qed.

(** X5: [_get_value] answers from the first entry that carries the
    device's name: what comes after that entry is never looked at, be it
    a second entry of the same name or an item that is no mapping. *)
Theorem get_value_first_match (self : Switch.t) (w : world) (name : string)
        (config : bool) (pre post : list value) (d : dict) :
  collection config (snapshot_of w) = Some (pre ++ VDict d :: post) ->
  forallb is_entry pre = true ->
  existsb (entry_named (Switch._name self)) pre = false ->
  py_eq_str (dict_get "name" d) (Switch._name self) = true ->
  returned (Switch._get_value name config) (self, w) = Ok (dict_get name d).
Proof.
  intros Hc Hwf Hno Hd. unfold returned. rewrite get_value_run. simpl.
  rewrite (lookup_collection _ _ _ _ _ Hc), (next_matching_skip _ _ _ _ Hwf Hno).
  simpl. now rewrite Hd.
Qed.

Lemma get_value_first_match_witness :
  let snapshot :=
    VDict [("deviceStatusInfo",
            VDict [("device",
                    VList [VDict [("name", VStr "lamp"); ("currentState", VInt 1)];
                           VDict [("name", VStr "plug1"); ("currentState", VInt 0)];
                           VDict [("name", VStr "plug1"); ("currentState", VInt 1)];
                           VNone])])] in
  returned Switch.current_state (Switch.__init__ "plug1", service snapshot 200)
  = Ok (VInt 0).
Proof.
  intros snapshot.
  exact (get_value_first_match (Switch.__init__ "plug1") (service snapshot 200)
           "currentState" false
           [VDict [("name", VStr "lamp"); ("currentState", VInt 1)]]
           [VDict [("name", VStr "plug1"); ("currentState", VInt 1)]; VNone]
           [("name", VStr "plug1"); ("currentState", VInt 0)]
           eq_refl eq_refl eq_refl eq_refl).
Defined.

(** X6: on a snapshot without the collection asked for, [_get_value]
    raises AttributeError ([None] has no [get]); on a collection without
    its [device] list it raises TypeError ([None] is not iterable); and
    an item that is no mapping, met before the device's entry, raises
    AttributeError.  In each case the status was read once and the
    object is untouched. *)
Theorem get_value_malformed (self : Switch.t) (w : world) (name : string)
        (config : bool) :
  let run := Switch._get_value name config (self, w) in
  let untouched := snd run = (self, logs [StatusRead name config] w) in
  (forall top, snapshot_of w = VDict top ->
     has_key (collection_key config) top = false ->
     fst run = Raise AttributeError /\ untouched) /\
  (forall top info, snapshot_of w = VDict top ->
     dict_get (collection_key config) top = VDict info ->
     has_key "device" info = false ->
     fst run = Raise TypeError /\ untouched) /\
  (forall pre item post,
     collection config (snapshot_of w) = Some (pre ++ item :: post) ->
     forallb is_entry pre = true ->
     existsb (entry_named (Switch._name self)) pre = false ->
     is_entry item = false ->
     fst run = Raise AttributeError /\ untouched).
Proof.
  intros run untouched. subst run untouched. rewrite get_value_run. simpl.
  split; [|split].
  - intros top Hs Hk. split; [|reflexivity].
    unfold lookup. rewrite Hs. simpl. now rewrite (dict_get_no_key _ _ Hk).
  - intros top info Hs Hi Hk. split; [|reflexivity].
    unfold lookup. rewrite Hs. simpl. rewrite Hi. simpl.
    now rewrite (dict_get_no_key _ _ Hk).
  - intros pre item post Hc Hwf Hno Hi. split; [|reflexivity].
    rewrite (lookup_collection _ _ _ _ _ Hc), (next_matching_skip _ _ _ _ Hwf Hno).
    destruct item; try reflexivity. discriminate.
Qed.

Lemma get_value_malformed_witness :
  returned (Switch._get_value "switchLocked" true)
    (Switch.__init__ "plug1", service damaged_config_snapshot 200) = Raise TypeError /\
  returned Switch.current_state
    (Switch.__init__ "plug1", service (VDict []) 200) = Raise AttributeError.
Proof.
  split.
  - exact (proj1 (proj1 (proj2 (get_value_malformed (Switch.__init__ "plug1")
                                  (service damaged_config_snapshot 200)
                                  "switchLocked" true))
                    _ [] eq_refl eq_refl eq_refl)).
  - exact (proj1 (proj1 (get_value_malformed (Switch.__init__ "plug1")
                           (service (VDict []) 200) "currentState" false)
                    [] eq_refl eq_refl)).
Defined.

(** X7: [can_toggle] reads the lock only of a connected device: when
    [is_connected] is False it returns False after the one read of
    [isConnected], and the configuration collection, even a damaged one,
    is not looked at. *)
Theorem can_toggle_short_circuit (self : Switch.t) (w : world) :
  returned Switch.is_connected (self, w) = Ok (VBool false) ->
  returned Switch.can_toggle (self, w) = Ok (VBool false) /\
  emitted Switch.can_toggle (self, w) = [StatusRead "isConnected" false].
Proof.
  unfold returned. rewrite is_connected_run. simpl. intros Hc.
  assert (E : Switch.can_toggle (self, w) =
              (Ok (VBool false), (self, logs [StatusRead "isConnected" false] w))).
  { rewrite can_toggle_run.
    destruct (lookup _ "isConnected" _ _) as [c|e]; [|discriminate].
    simpl in Hc. unfold to_bool in Hc. injection Hc as Hc. now rewrite Hc. }
  rewrite (emitted_logs _ _ _ _ _ E), E. auto.
Qed.

Lemma can_toggle_short_circuit_witness :
  let st := (Switch.__init__ "plug1", service damaged_config_snapshot 200) in
  returned Switch.is_locked st = Raise TypeError /\
  returned Switch.can_toggle st = Ok (VBool false).
Proof.
  intros st. split; [reflexivity|].
  exact (proj1 (can_toggle_short_circuit (Switch.__init__ "plug1")
                  (service damaged_config_snapshot 200) eq_refl)).
Defined.

(** ** _change_state on every path *)

Section ChangeStatePaths.
Context `{Builtins}.

Lemma write_full_run (state : value) (self : Switch.t) (w : world) (uuid : value) :
  let url := device_url (toon w) uuid in
  let hdrs := Session._headers (toon w) in
  returned Switch.can_toggle (self, w) = Ok (VBool true) ->
  returned Switch.device_uuid (self, w) = Ok uuid ->
  Switch._change_state state (self, w) =
  (fst (write_calls w url hdrs state),
   (if truthy (Switch._device_uuid self) then self
    else Switch.set_device_uuid uuid self,
    logs ([StatusRead "isConnected" false; StatusRead "switchLocked" true] ++
          (if truthy (Switch._device_uuid self) then []
           else [StatusRead "devUUID" false]) ++
          snd (write_calls w url hdrs state)) w)).
Proof.
  intros url hdrs Hc Hu. unfold returned in *.
  subst url hdrs. unfold device_url, write_calls in *.
  change Switch.device_uuid with (memo_property DeviceUuid) in Hu.
  rewrite memo_property_run in Hu. rewrite can_toggle_run in Hc.
  unfold Switch._change_state, bind at 1. rewrite can_toggle_run.
  destruct (lookup _ "isConnected" _ _) as [c|e]; [|discriminate].
  destruct (truthy c); [|discriminate].
  destruct (lookup _ "switchLocked" _ _) as [l|e]; [|discriminate].
  simpl in Hc. injection Hc as Hl. unfold on_ok. rewrite Hl.
  cbn [negb truthy]. cbv beta iota.
  unfold bind at 1. unfold get_toon at 1. cbv beta iota.
  unfold bind at 1.
  change Switch.device_uuid with (memo_property DeviceUuid).
  rewrite memo_property_run.
  change (snapshot_of (logs _ w)) with (snapshot_of w).
  cbn [memo_get memo_field memo_config memo_set] in *.
  destruct (truthy (Switch._device_uuid self)).
  - cbn [fst] in Hu. injection Hu as Hu. subst uuid.
    unfold bind, get_toon, http_get_json, http_put, pure, emit, ret.
    cbn [fst snd log toon requests_get_json requests_put logs fold_left].
    destruct (requests_get_json w _ _) as [data|e]; [|reflexivity].
    destruct (py_int state) as [n|e]; [|reflexivity].
    destruct (py_setitem data _ _) as [body|e]; [|reflexivity].
    destruct (requests_put w _ _ _) as [response|e]; reflexivity.
  - destruct (lookup _ "devUUID" _ _) as [v|e]; [|discriminate].
    cbn [fst] in Hu. injection Hu as Hu. subst uuid.
    unfold bind, get_toon, http_get_json, http_put, pure, emit, ret.
    cbn [fst snd log toon requests_get_json requests_put logs fold_left].
    destruct (requests_get_json w _ _) as [data|e]; [|reflexivity].
    destruct (py_int state) as [n|e]; [|reflexivity].
    destruct (py_setitem data _ _) as [body|e]; [|reflexivity].
    destruct (requests_put w _ _ _) as [response|e]; reflexivity.
Qed.

Lemma can_toggle_raises_run (state : value) (self : Switch.t) (w : world) (e : exn) :
  returned Switch.can_toggle (self, w) = Raise e ->
  Switch._change_state state (self, w) =
  (Raise e, (self, logs (emitted Switch.can_toggle (self, w)) w)).
Proof.
  unfold returned. intros Hc.
  assert (Hrun : exists evs, Switch.can_toggle (self, w)
                             = (Raise e, (self, logs evs w))).
  { rewrite can_toggle_run in *.
    destruct (lookup _ "isConnected" _ _) as [c|e0].
    - destruct (truthy c); [|discriminate].
      destruct (lookup _ "switchLocked" _ _) as [l|e1]; [discriminate|].
      simpl in Hc. injection Hc as ->. eauto.
    - simpl in Hc. injection Hc as ->. eauto. }
  destruct Hrun as [evs Hrun].
  rewrite (emitted_logs _ _ _ _ _ Hrun).
  unfold Switch._change_state, bind. now rewrite Hrun.
Qed.

(** The three courses of a [_change_state]: [can_toggle] raised, it was
    False, or it was True and the write was attempted. *)
Lemma change_state_cases (state : value) (self : Switch.t) (w : world) :
  let m := Switch._change_state state in
  (exists e, returned m (self, w) = Raise e /\
             forallb is_status_read (emitted m (self, w)) = true) \/
  (returned m (self, w) = Ok (VBool false) /\
   exists reads, forallb is_status_read reads = true /\
                 emitted m (self, w) = reads ++ [LogWarning Switch.warning_text]) \/
  (exists uuid reads,
     forallb is_status_read reads = true /\
     returned m (self, w) =
       fst (write_calls w (device_url (toon w) uuid) (Session._headers (toon w)) state) /\
     emitted m (self, w) =
       reads ++
       snd (write_calls w (device_url (toon w) uuid) (Session._headers (toon w)) state)).
Proof.
  intros m. subst m.
  destruct (returned Switch.can_toggle (self, w)) as [v|e] eqn:Hc.
  - rewrite (can_toggle_is_bool _ _ Hc) in Hc. destruct (truthy v).
    + right. right. destruct (can_toggle_uuid self w Hc) as [uuid Hu].
      pose proof (write_full_run state self w uuid Hc Hu) as E.
      exists uuid. eexists. rewrite (emitted_logs _ _ _ _ _ E).
      unfold returned. rewrite E. rewrite app_assoc.
      split; [|split; reflexivity].
      now destruct (truthy (Switch._device_uuid self)).
    + right. left. pose proof (refusal_run state self w Hc) as E.
      rewrite (emitted_logs _ _ _ _ _ E). unfold returned. rewrite E.
      split; [reflexivity|]. eexists. split; [|reflexivity].
      apply can_toggle_only_reads.
  - left. exists e. pose proof (can_toggle_raises_run state self w e Hc) as E.
    rewrite (emitted_logs _ _ _ _ _ E). unfold returned. rewrite E.
    split; [reflexivity | apply can_toggle_only_reads].
Qed.

Lemma write_calls_clears (w : world) (url : string) (hdrs : headers) (state : value) :
  cache_clears (snd (write_calls w url hdrs state)) =
  if returned_true (fst (write_calls w url hdrs state)) then 1 else 0.
Proof.
  unfold write_calls.
  destruct (requests_get_json w url hdrs) as [data|e]; [|reflexivity].
  destruct (py_int state) as [n|e]; [|reflexivity].
  destruct (py_setitem data _ _) as [body|e]; [|reflexivity].
  destruct (requests_put w url body hdrs) as [response|e]; reflexivity.
Qed.

Lemma write_calls_http (w : world) (url : string) (hdrs : headers) (state : value) :
  get_then_put (http_calls (snd (write_calls w url hdrs state))).
Proof.
  unfold write_calls, get_then_put. right. exists url, hdrs.
  destruct (requests_get_json w url hdrs) as [data|e]; [|now left].
  destruct (py_int state) as [n|e]; [|now left].
  destruct (py_setitem data _ _) as [body|e]; [|now left].
  right. exists body.
  destruct (requests_put w url body hdrs) as [response|e]; reflexivity.
Qed.

(** X8: [_change_state] invalidates the session's cache exactly when it
    returns True: once then, and never when it returns False or
    raises, whatever the snapshot and the service do. *)
Theorem cache_cleared_iff_true (state : value) (self : Switch.t) (w : world) :
  cache_clears (emitted (Switch._change_state state) (self, w)) =
  if returned_true (returned (Switch._change_state state) (self, w)) then 1 else 0.
Proof.
  destruct (change_state_cases state self w)
    as [(e & Hr & He) | [(Hr & reads & Hreads & He) | (uuid & reads & Hreads & Hr & He)]].
  - rewrite Hr. simpl. now destruct (reads_are_no_calls _ He) as (_ & Hc & _).
  - rewrite Hr, He. simpl. unfold cache_clears. rewrite filter_app, length_app.
    destruct (reads_are_no_calls _ Hreads) as (_ & Hc & _).
    unfold cache_clears in Hc. now rewrite Hc.
  - rewrite Hr, He. unfold cache_clears. rewrite filter_app, length_app.
    destruct (reads_are_no_calls _ Hreads) as (_ & Hc & _).
    unfold cache_clears in Hc. rewrite Hc. simpl. apply write_calls_clears.
Qed.

(** X9: a [_change_state] makes at most one GET and at most one PUT, the
    PUT only after the GET and to the same url with the same headers. *)
Theorem change_state_get_then_put (state : value) (self : Switch.t) (w : world) :
  get_then_put (http_calls (emitted (Switch._change_state state) (self, w))).
Proof.
  destruct (change_state_cases state self w)
    as [(e & Hr & He) | [(Hr & reads & Hreads & He) | (uuid & reads & Hreads & Hr & He)]].
  - left. now destruct (reads_are_no_calls _ He) as (Hh & _).
  - left. rewrite He. unfold http_calls. rewrite filter_app.
    destruct (reads_are_no_calls _ Hreads) as (Hh & _).
    unfold http_calls in Hh. now rewrite Hh.
  - rewrite He. unfold http_calls. rewrite filter_app.
    destruct (reads_are_no_calls _ Hreads) as (Hh & _).
    unfold http_calls in Hh. rewrite Hh. simpl. apply write_calls_http.
Qed.

End ChangeStatePaths.

Section ChangeStateFailures.
Context `{Builtins}.

Lemma write_emitted (state : value) (self : Switch.t) (w : world) (uuid : value) :
  let url := device_url (toon w) uuid in
  let hdrs := Session._headers (toon w) in
  returned Switch.can_toggle (self, w) = Ok (VBool true) ->
  returned Switch.device_uuid (self, w) = Ok uuid ->
  returned (Switch._change_state state) (self, w) = fst (write_calls w url hdrs state) /\
  service_calls (emitted (Switch._change_state state) (self, w)) =
    service_calls (snd (write_calls w url hdrs state)) /\
  cache_clears (emitted (Switch._change_state state) (self, w)) =
    cache_clears (snd (write_calls w url hdrs state)) /\
  Switch._device_uuid (self_after (Switch._change_state state) (self, w)) = uuid.
Proof.
  intros url hdrs Hc Hu.
  pose proof (write_full_run state self w uuid Hc Hu) as E.
  rewrite (emitted_logs _ _ _ _ _ E). unfold returned, self_after. rewrite E.
  unfold returned in Hu. change Switch.device_uuid with (memo_property DeviceUuid) in Hu.
  rewrite memo_property_run in Hu. simpl memo_get in Hu.
  unfold service_calls, cache_clears. simpl fst. simpl snd.
  destruct (truthy (Switch._device_uuid self)); simpl in Hu |- *.
  - injection Hu as Hu. auto.
  - auto.
Qed.

(** X10: with [can_toggle] true, a GET that fails, an undefined
    [int(state)] and a GET body that is no JSON object each end the call
    with an exception after the one GET: no PUT is sent and the cache is
    not invalidated.  [int(state)] is evaluated only after the GET. *)
Theorem change_state_fails_before_put (state : value) (self : Switch.t) (w : world)
        (uuid : value) :
  let url := device_url (toon w) uuid in
  let hdrs := Session._headers (toon w) in
  let m := Switch._change_state state in
  returned Switch.can_toggle (self, w) = Ok (VBool true) ->
  returned Switch.device_uuid (self, w) = Ok uuid ->
  (forall e, requests_get_json w url hdrs = Raise e ->
     returned m (self, w) = Raise e /\
     service_calls (emitted m (self, w)) = [HttpGet url hdrs]) /\
  (forall data e, requests_get_json w url hdrs = Ok data ->
     py_int state = Raise e ->
     returned m (self, w) = Raise e /\
     service_calls (emitted m (self, w)) = [HttpGet url hdrs]) /\
  (forall data n, requests_get_json w url hdrs = Ok data ->
     py_int state = Ok n -> is_entry data = false ->
     returned m (self, w) = Raise TypeError /\
     service_calls (emitted m (self, w)) = [HttpGet url hdrs]).
Proof.
  intros url hdrs m Hc Hu. subst m.
  destruct (write_emitted state self w uuid Hc Hu) as (Hr & Hs & _).
  fold url hdrs in Hr, Hs. rewrite Hr, Hs. unfold write_calls.
  split; [|split].
  - intros e ->. auto.
  - intros data e -> ->. auto.
  - intros data n -> -> Hd. destruct data; try discriminate; auto.
Qed.

(** X11: with [can_toggle] true and the GET answered, a PUT that fails
    lets its exception through after the GET and the PUT, and the cache
    is not invalidated. *)
Theorem change_state_put_fails (state : value) (self : Switch.t) (w : world)
        (uuid : value) (d : dict) (n : Z) (e : exn) :
  let url := device_url (toon w) uuid in
  let hdrs := Session._headers (toon w) in
  let m := Switch._change_state state in
  returned Switch.can_toggle (self, w) = Ok (VBool true) ->
  returned Switch.device_uuid (self, w) = Ok uuid ->
  requests_get_json w url hdrs = Ok (VDict d) ->
  py_int state = Ok n ->
  requests_put w url (put_body d n) hdrs = Raise e ->
  returned m (self, w) = Raise e /\
  service_calls (emitted m (self, w)) =
    [HttpGet url hdrs; HttpPut url (put_body d n) hdrs] /\
  cache_clears (emitted m (self, w)) = 0.
Proof.
  intros url hdrs m Hc Hu Hget Hint Hput. subst m.
  destruct (write_emitted state self w uuid Hc Hu) as (Hr & Hs & Hcl & _).
  fold url hdrs in Hr, Hs, Hcl. rewrite Hr, Hs, Hcl. unfold write_calls.
  rewrite Hget, Hint. simpl. unfold put_body in Hput. rewrite Hput. auto.
Qed.

(** X12: when [can_toggle] raises, on a damaged snapshot, [_change_state]
    raises the same exception before any HTTP call, logs no warning and
    leaves the object as it was. *)
Theorem change_state_can_toggle_raises (state : value) (self : Switch.t)
        (w : world) (e : exn) :
  returned Switch.can_toggle (self, w) = Raise e ->
  returned (Switch._change_state state) (self, w) = Raise e /\
  http_calls (emitted (Switch._change_state state) (self, w)) = [] /\
  warnings (emitted (Switch._change_state state) (self, w)) = [] /\
  self_after (Switch._change_state state) (self, w) = self.
Proof.
  intros Hc. pose proof (can_toggle_raises_run state self w e Hc) as E.
  rewrite (emitted_logs _ _ _ _ _ E). unfold returned, self_after. rewrite E.
  destruct (can_toggle_only_reads self w) as [Hr _].
  destruct (reads_are_no_calls _ Hr) as (Hh & _ & Hw & _). auto.
Qed.

(** X13: a [_change_state] that gets past [can_toggle] leaves the
    device's uuid in [_device_uuid], also when the write then fails; a
    truthy uuid is from then on returned by [device_uuid] without any
    read of the status, whatever the snapshot has become. *)
Theorem write_memoizes_uuid (state : value) (self : Switch.t) (w : world)
        (uuid : value) :
  returned Switch.can_toggle (self, w) = Ok (VBool true) ->
  returned Switch.device_uuid (self, w) = Ok uuid ->
  let self' := self_after (Switch._change_state state) (self, w) in
  Switch._device_uuid self' = uuid /\
  (truthy uuid = true ->
   forall w', Switch.device_uuid (self', w') = (Ok uuid, (self', w'))).
Proof.
  intros Hc Hu self'.
  destruct (write_emitted state self w uuid Hc Hu) as (_ & _ & _ & Hm).
  fold self' in Hm. split; [exact Hm|].
  intros Ht w'. change Switch.device_uuid with (memo_property DeviceUuid).
  rewrite memo_property_run. simpl memo_get. now rewrite Hm, Ht.
Qed.

(** X14: [toggle()] goes by the truth value of [current_state]: after
    the read it is [_change_state(0)] for every truthy value and
    [_change_state(1)] for every falsy one, None (no entry, or no
    [currentState] field) included. *)
Theorem toggle_by_truth_value (self : Switch.t) (w : world) (v : value) :
  returned Switch.current_state (self, w) = Ok v ->
  after_state_read Switch.toggle
    (Switch._change_state (VInt (if truthy v then 0 else 1))) (self, w).
Proof.
  intros Hv. pose proof (toggle_after_read self w v Hv) as Ht.
  unfold py_not in Ht. now destruct (truthy v).
Qed.

End ChangeStateFailures.

Lemma change_state_fails_before_put_witness :
  let st := (Switch.__init__ "plug1",
             broken_service (plug1_snapshot false 0 3) false) in
  returned (@Switch._change_state scalar_builtins (VInt 1)) st = Raise TypeError /\
  service_calls (emitted (@Switch._change_state scalar_builtins (VInt 1)) st) =
    [HttpGet "https://api.toon.eu/toon/v3/1/devices/uuid-1"
             [("Authorization", "Bearer token")]].
Proof.
  intros st.
  exact (proj2 (proj2 (@change_state_fails_before_put scalar_builtins (VInt 1)
                         (Switch.__init__ "plug1")
                         (broken_service (plug1_snapshot false 0 3) false)
                         (VStr "uuid-1") eq_refl eq_refl))
           (VList []) 1%Z eq_refl eq_refl eq_refl).
Defined.

Lemma change_state_put_fails_witness :
  let st := (Switch.__init__ "plug1",
             broken_service (plug1_snapshot false 0 3) true) in
  returned (@Switch._change_state scalar_builtins (VInt 1)) st
    = Raise RequestException /\
  cache_clears (emitted (@Switch._change_state scalar_builtins (VInt 1)) st) = 0.
Proof.
  intros st.
  pose proof (@change_state_put_fails scalar_builtins (VInt 1)
                (Switch.__init__ "plug1")
                (broken_service (plug1_snapshot false 0 3) true)
                (VStr "uuid-1") plug1_document 1%Z RequestException
                eq_refl eq_refl eq_refl eq_refl eq_refl) as (Hr & _ & Hc).
  split; [exact Hr | exact Hc].
Defined.

Lemma change_state_can_toggle_raises_witness :
  returned (@Switch._change_state scalar_builtins (VInt 1))
    (Switch.__init__ "plug1", service (VDict []) 200) = Raise AttributeError.
Proof.
  exact (proj1 (@change_state_can_toggle_raises scalar_builtins (VInt 1)
                  (Switch.__init__ "plug1") (service (VDict []) 200)
                  AttributeError eq_refl)).
Defined.

Lemma write_memoizes_uuid_witness :
  let st := (Switch.__init__ "plug1",
             broken_service (plug1_snapshot false 0 3) false) in
  Switch._device_uuid (self_after (@Switch._change_state scalar_builtins (VInt 1)) st)
  = VStr "uuid-1".
Proof.
  intros st.
  exact (proj1 (@write_memoizes_uuid scalar_builtins (VInt 1)
                  (Switch.__init__ "plug1")
                  (broken_service (plug1_snapshot false 0 3) false)
                  (VStr "uuid-1") eq_refl eq_refl)).
Defined.

Lemma toggle_by_truth_value_witness :
  let st := (Switch.__init__ "plug1", service stateless_plug_snapshot 200) in
  let url := "https://api.toon.eu/toon/v3/1/devices/uuid-1" in
  let hdrs := [("Authorization", "Bearer token")] in
  returned Switch.current_state st = Ok VNone /\
  returned (@Switch.toggle scalar_builtins) st = Ok (VBool true) /\
  http_calls (emitted (@Switch.toggle scalar_builtins) st) =
    [HttpGet url hdrs;
     HttpPut url (VDict [("devUUID", VStr "uuid-1"); ("name", VStr "plug1");
                         ("currentState", VInt 1); ("isConnected", VInt 1)]) hdrs].
Proof.
  intros st url hdrs.
  pose proof (@toggle_by_truth_value scalar_builtins (Switch.__init__ "plug1")
                (service stateless_plug_snapshot 200) VNone eq_refl)
    as (Hr & _ & He).
  split; [reflexivity | split].
  - exact (eq_trans Hr eq_refl).
  - exact (eq_trans (f_equal http_calls He) eq_refl).
Defined.

(** ** More on the lazily memoized fields *)

Lemma step_keeps_name (a : action) (st : SmartPlug.t * world) :
  plug_name (step a st) = plug_name st.
Proof.
  destruct st as [self w]. destruct a as [f|snapshot]; [|reflexivity].
  unfold plug_name. simpl. rewrite access_run.
  destruct (populated f self); [reflexivity|].
  destruct (lookup _ _ _ _); [|reflexivity].
  simpl. destruct f as [[]|]; reflexivity.
Qed.

Lemma step_access_snapshot (f : lazy_field) (st : SmartPlug.t * world) :
  snapshot_of (snd (step (Access f) st)) = snapshot_of (snd st).
Proof.
  destruct st as [self w]. simpl. rewrite access_run.
  destruct (populated f self); [reflexivity|].
  destruct (lookup _ _ _ _); reflexivity.
Qed.

Lemma usage_capable_once_aux (acts : list action) (st : SmartPlug.t * world) :
  config_readable (plug_name st) (snapshot_of (snd st)) = true ->
  replacements_ok (config_readable (plug_name st)) acts = true ->
  lookups UsageCapable (trace (snd (run acts st))) <=
  lookups UsageCapable (trace (snd st)) + 1.
Proof.
  revert st. induction acts as [|a acts IH]; intros st Hs Hacts; [simpl; lia|].
  destruct (populated UsageCapable (fst st)) eqn:Hp.
  - rewrite (proj2 (run_keeps_populated UsageCapable (a :: acts) st Hp)). lia.
  - change (run (a :: acts) st) with (run acts (step a st)).
    simpl in Hacts. apply andb_prop in Hacts. destruct Hacts as [Ha Hacts].
    destruct a as [f|snapshot].
    + destruct (lazy_field_eq_dec f UsageCapable) as [->|Hne].
      * (* the one lookup: it succeeds and populates the field *)
        assert (Hafter : populated UsageCapable (fst (step (Access UsageCapable) st)) = true /\
                         lookups UsageCapable (trace (snd (step (Access UsageCapable) st)))
                         = lookups UsageCapable (trace (snd st)) + 1).
        { destruct st as [self w]. simpl in Hp. unfold step. rewrite access_run.
          simpl populated. rewrite Hp.
          unfold config_readable, plug_name in Hs. simpl in Hs.
          simpl lazy_name. simpl lazy_config.
          destruct (lookup _ _ _ _) as [v|e]; [|discriminate].
          cbn [fst snd]. rewrite trace_logs, lookups_app, lookups_one.
          split; reflexivity. }
        destruct Hafter as [Hp' Hl'].
        rewrite (proj2 (run_keeps_populated UsageCapable acts _ Hp')). lia.
      * (* another field: no lookup of usageCapable *)
        assert (Hl : lookups UsageCapable (trace (snd (step (Access f) st)))
                     = lookups UsageCapable (trace (snd st))).
        { destruct st as [self w]. unfold step. rewrite access_run.
          destruct (populated f self); [reflexivity|].
          assert (Hf : is_lookup UsageCapable (StatusRead (lazy_name f) (lazy_config f))
                       = false) by (apply is_lookup_other; congruence).
          destruct (lookup _ _ _ _); cbn [fst snd];
            rewrite trace_logs, lookups_app, lookups_one, Hf; lia. }
        rewrite <- Hl. apply IH.
        -- now rewrite step_keeps_name, step_access_snapshot.
        -- now rewrite step_keeps_name.
    + apply (IH (step (Replace snapshot) st)); [exact Ha | exact Hacts].
Qed.

(** X15: as long as the configuration collection can be searched,
    [usage_capable] looks the snapshot up at most once in the life of a
    SmartPlug, whatever is accessed and however often the snapshot is
    replaced; a False answer is kept like a True one. *)
Theorem usage_capable_fetched_once (acts : list action) (self : SmartPlug.t)
        (w : world) :
  let self_name := Switch._name (SmartPlug.switch self) in
  config_readable self_name (snapshot_of w) = true ->
  replacements_ok (config_readable self_name) acts = true ->
  lookups UsageCapable (trace (snd (run acts (self, w)))) <=
  lookups UsageCapable (trace w) + 1.
Proof.
  intros self_name Hs Hacts. exact (usage_capable_once_aux acts (self, w) Hs Hacts).
Qed.

Lemma usage_capable_fetched_once_witness :
  let acts := [Access UsageCapable; Replace empty_snapshot; Access UsageCapable;
               Access (Memo ZwaveIndex); Replace (plug1_snapshot false 1 3);
               Access UsageCapable] in
  lookups UsageCapable
    (trace (snd (run acts (SmartPlug.__init__ "plug1",
                           service (plug1_snapshot false 0 3) 200)))) <= 1.
Proof.
  intros acts.
  exact (usage_capable_fetched_once acts (SmartPlug.__init__ "plug1")
           (service (plug1_snapshot false 0 3) 200) eq_refl eq_refl).
Defined.

Lemma gated_usage_run (name : string) (self : SmartPlug.t) (w : world) :
  gated_usage name (self, w) =
  match SmartPlug.usage_capable (self, w) with
  | (Ok capable, (self', w')) =>
      if truthy capable
      then (lookup (Switch._name (SmartPlug.switch self')) name false (snapshot_of w'),
            (self', logs [StatusRead name false] w'))
      else (Ok (VInt 0), (self', w'))
  | (Raise e, st') => (Raise e, st')
  end.
Proof.
  unfold gated_usage, bind.
  destruct (SmartPlug.usage_capable (self, w)) as [[capable|e] [self' w']];
    [|reflexivity].
  destruct (truthy capable); [|reflexivity].
  apply plug_get_value_run.
Qed.

(** X16: when [usage_capable] is False the usage figures are answered
    without looking at the status collection: [average_usage],
    [current_usage] and [daily_usage] make the calls [usage_capable]
    makes and no other, and leave the object as it leaves it. *)
Theorem usage_not_read_when_incapable (self : SmartPlug.t) (w : world) (capable : value) :
  returned SmartPlug.usage_capable (self, w) = Ok capable ->
  truthy capable = false ->
  Forall (fun m : M SmartPlug.t value =>
            returned m (self, w) = Ok (VInt 0) /\
            emitted m (self, w) = emitted SmartPlug.usage_capable (self, w) /\
            self_after m (self, w) = self_after SmartPlug.usage_capable (self, w))
         [SmartPlug.average_usage; SmartPlug.current_usage; SmartPlug.daily_usage].
Proof.
  intros Hc Hf. unfold returned in Hc.
  repeat constructor;
    [change SmartPlug.average_usage with (gated_usage "avgUsage")
    |change SmartPlug.average_usage with (gated_usage "avgUsage")
    |change SmartPlug.average_usage with (gated_usage "avgUsage")
    |change SmartPlug.current_usage with (gated_usage "currentUsage")
    |change SmartPlug.current_usage with (gated_usage "currentUsage")
    |change SmartPlug.current_usage with (gated_usage "currentUsage")
    |change SmartPlug.daily_usage with (gated_usage "dayUsage")
    |change SmartPlug.daily_usage with (gated_usage "dayUsage")
    |change SmartPlug.daily_usage with (gated_usage "dayUsage")];
    unfold returned, emitted, self_after, world_after; rewrite gated_usage_run;
    destruct (SmartPlug.usage_capable (self, w)) as [[c|e] [self' w']];
    try discriminate; simpl in Hc; injection Hc as ->; rewrite Hf; reflexivity.
Qed.

Lemma usage_not_read_when_incapable_witness :
  let st := (SmartPlug.__init__ "plug1", service (plug1_snapshot false 0 3) 200) in
  emitted SmartPlug.average_usage st = [StatusRead "usageCapable" true].
Proof.
  intros st.
  pose proof (usage_not_read_when_incapable (SmartPlug.__init__ "plug1")
                (service (plug1_snapshot false 0 3) 200) (VBool false)
                eq_refl eq_refl) as Hall.
  apply Forall_inv in Hall. destruct Hall as (_ & He & _).
  exact (eq_trans He eq_refl).
Defined.

(** X17: an identifier whose looked-up value is falsy (a zwave position
    0, an empty string) is stored but does not count as fetched: the
    next access looks the snapshot up again and answers from the
    snapshot then in place. *)
Theorem falsy_identifier_is_fetched_again (a : memo_attr) (self : Switch.t)
        (w : world) (v : value) :
  truthy (memo_get a self) = false ->
  lookup (Switch._name self) (memo_field a) (memo_config a) (snapshot_of w) = Ok v ->
  truthy v = false ->
  let self' := self_after (memo_property a) (self, w) in
  memo_get a self' = v /\
  forall w',
    returned (memo_property a) (self', w') =
      lookup (Switch._name self) (memo_field a) (memo_config a) (snapshot_of w') /\
    emitted (memo_property a) (self', w') =
      [StatusRead (memo_field a) (memo_config a)].
Proof.
  intros Hm Hl Hv self'. subst self'. unfold self_after.
  rewrite memo_property_run, Hm, Hl. simpl.
  assert (Hg : memo_get a (memo_set a v self) = v) by (destruct a; reflexivity).
  assert (Hn : Switch._name (memo_set a v self) = Switch._name self)
    by (destruct a; reflexivity).
  split; [exact Hg|]. intros w'.
  assert (E : exists r self2,
             memo_property a (memo_set a v self, w') =
             (r, (self2, logs [StatusRead (memo_field a) (memo_config a)] w')) /\
             r = lookup (Switch._name self) (memo_field a) (memo_config a)
                        (snapshot_of w')).
  { rewrite memo_property_run, Hg, Hv, Hn.
    destruct (lookup _ _ _ (snapshot_of w')); eauto. }
  destruct E as (r & self2 & E & Hr).
  rewrite (emitted_logs _ _ _ _ _ E). unfold returned. rewrite E. auto.
Qed.

Lemma falsy_identifier_is_fetched_again_witness :
  let self' := self_after Switch.zwave_index
                 (Switch.__init__ "plug1", service (plug1_snapshot false 0 0) 200) in
  Switch._zwave_index self' = VInt 0 /\
  returned Switch.zwave_index (self', service (plug1_snapshot false 0 5) 200)
  = Ok (VInt 5).
Proof.
  intros self'.
  pose proof (falsy_identifier_is_fetched_again ZwaveIndex (Switch.__init__ "plug1")
                (service (plug1_snapshot false 0 0) 200) (VInt 0)
                eq_refl eq_refl eq_refl) as [Hs Hagain].
  split; [exact Hs|].
  exact (proj1 (Hagain (service (plug1_snapshot false 0 5) 200))).
Defined.

(** ** The other devices of a snapshot *)

Lemma find_own_entries (self_name : string) (items : list value) :
  find (entry_named self_name) items = hd_error (own_entries self_name items).
Proof.
  unfold own_entries. induction items as [|item items IH]; simpl; [reflexivity|].
  now destruct (entry_named self_name item).
Qed.

Lemma own_entries_permutation (self_name : string) (items items' : list value) :
  Permutation items items' ->
  Permutation (own_entries self_name items) (own_entries self_name items').
Proof.
  unfold own_entries. induction 1 as [|x l l' _ IH|x y l|l l' l'' _ IH1 _ IH2]; simpl.
  - constructor.
  - destruct (entry_named self_name x); [now constructor | exact IH].
  - destruct (entry_named self_name x), (entry_named self_name y);
      try apply Permutation_refl. apply perm_swap.
  - eapply Permutation_trans; eassumption.
Qed.

Lemma is_entry_permutation (items items' : list value) :
  Permutation items items' ->
  forallb is_entry items = true -> forallb is_entry items' = true.
Proof.
  intros Hp Hwf. apply forallb_forall. intros x Hx.
  apply (proj1 (forallb_forall _ _) Hwf). eapply Permutation_in; [|exact Hx].
  now apply Permutation_sym.
Qed.

Lemma lookup_own_entries (self_name name : string) (config : bool)
      (snapshot : value) (items : list value) :
  collection config snapshot = Some items ->
  forallb is_entry items = true ->
  lookup self_name name config snapshot =
  Ok match hd_error (own_entries self_name items) with
     | Some item => entry_field name item
     | None => VNone
     end.
Proof.
  intros Hc Hwf. rewrite (lookup_well_formed _ _ _ _ _ Hc Hwf).
  now rewrite find_own_entries.
Qed.

(** X18: in well-formed collections the answer of [_get_value] depends
    on the device's own entries only: entries of other devices may be
    added, removed or moved without changing what is returned. *)
Theorem get_value_ignores_other_devices (self : Switch.t) (w w' : world)
        (name : string) (config : bool) (items items' : list value) :
  collection config (snapshot_of w) = Some items ->
  collection config (snapshot_of w') = Some items' ->
  forallb is_entry items = true ->
  forallb is_entry items' = true ->
  own_entries (Switch._name self) items = own_entries (Switch._name self) items' ->
  returned (Switch._get_value name config) (self, w) =
  returned (Switch._get_value name config) (self, w').
Proof.
  intros Hc Hc' Hwf Hwf' Hown. unfold returned. rewrite !get_value_run. simpl.
  rewrite (lookup_own_entries _ _ _ _ _ Hc Hwf),
    (lookup_own_entries _ _ _ _ _ Hc' Hwf').
  now rewrite Hown.
Qed.

Lemma get_value_ignores_other_devices_witness :
  let crowded :=
    VDict [("deviceStatusInfo",
            VDict [("device",
                    VList [VDict [("name", VStr "lamp"); ("currentState", VInt 1)];
                           VDict [("name", VStr "plug1"); ("currentState", VInt 0)];
                           VDict [("name", VStr "plug2"); ("currentState", VInt 1)]])])] in
  let alone :=
    VDict [("deviceStatusInfo",
            VDict [("device",
                    VList [VDict [("name", VStr "plug1"); ("currentState", VInt 0)]])])] in
  returned Switch.current_state (Switch.__init__ "plug1", service crowded 200) =
  returned Switch.current_state (Switch.__init__ "plug1", service alone 200).
Proof.
  intros crowded alone.
  exact (get_value_ignores_other_devices (Switch.__init__ "plug1")
           (service crowded 200) (service alone 200) "currentState" false
           _ _ eq_refl eq_refl eq_refl eq_refl eq_refl).
Defined.

(** X19: when a well-formed collection holds at most one entry for the
    device, as a snapshot of the service does, the order of the entries
    does not matter to [_get_value]. *)
Theorem get_value_order_independent (self : Switch.t) (w w' : world)
        (name : string) (config : bool) (items items' : list value) :
  collection config (snapshot_of w) = Some items ->
  collection config (snapshot_of w') = Some items' ->
  forallb is_entry items = true ->
  List.length (own_entries (Switch._name self) items) <= 1 ->
  Permutation items items' ->
  returned (Switch._get_value name config) (self, w) =
  returned (Switch._get_value name config) (self, w').
Proof.
  intros Hc Hc' Hwf Hone Hp. unfold returned. rewrite !get_value_run. simpl.
  rewrite (lookup_own_entries _ _ _ _ _ Hc Hwf),
    (lookup_own_entries _ _ _ _ _ Hc' (is_entry_permutation _ _ Hp Hwf)).
  pose proof (own_entries_permutation (Switch._name self) _ _ Hp) as Hown.
  destruct (own_entries (Switch._name self) items) as [|x [|y rest]].
  - apply Permutation_nil in Hown. now rewrite Hown.
  - apply Permutation_length_1_inv in Hown. now rewrite Hown.
  - simpl in Hone. lia.
Qed.

Lemma get_value_order_independent_witness :
  let entry n s := VDict [("name", VStr n); ("currentState", VInt s)] in
  let snapshot items := VDict [("deviceStatusInfo", VDict [("device", VList items)])] in
  returned Switch.current_state
    (Switch.__init__ "plug1",
     service (snapshot [entry "lamp" 1%Z; entry "plug1" 0%Z]) 200) =
  returned Switch.current_state
    (Switch.__init__ "plug1",
     service (snapshot [entry "plug1" 0%Z; entry "lamp" 1%Z]) 200).
Proof.
  intros entry snapshot.
  refine (get_value_order_independent (Switch.__init__ "plug1")
            (service (snapshot [entry "lamp" 1%Z; entry "plug1" 0%Z]) 200)
            (service (snapshot [entry "plug1" 0%Z; entry "lamp" 1%Z]) 200)
            "currentState" false _ _ eq_refl eq_refl eq_refl _ _).
  - simpl. lia.
  - apply perm_swap.
Defined.

Lemma write_calls_start `{Builtins} (w : world) (url : string) (hdrs : headers)
      (state : value) :
  hd_error (service_calls (snd (write_calls w url hdrs state))) = Some (HttpGet url hdrs).
Proof.
  unfold write_calls.
  destruct (requests_get_json w url hdrs) as [data|e]; [|reflexivity].
  destruct (py_int state) as [n|e]; [|reflexivity].
  destruct (py_setitem data _ _) as [body|e]; [|reflexivity].
  destruct (requests_put w url body hdrs) as [response|e]; reflexivity.
Qed.

(** X20: a connected, unlocked device whose status entry has no
    [devUUID] is still written to: the uuid is None, and the GET goes to
    the url that ends in [/devices/None]. *)
Theorem change_state_without_uuid `{Builtins} (state : value) (self : Switch.t)
        (w : world) :
  returned Switch.can_toggle (self, w) = Ok (VBool true) ->
  Switch._device_uuid self = VNone ->
  field_absent (Switch._name self) "devUUID" false (snapshot_of w) = true ->
  hd_error (service_calls (emitted (Switch._change_state state) (self, w))) =
  Some (HttpGet (Session._api_url (toon w) ++ "/devices/None")%string
                (Session._headers (toon w))).
Proof.
  intros Hc Hm Ha.
  assert (Hu : returned Switch.device_uuid (self, w) = Ok VNone).
  { unfold returned. change Switch.device_uuid with (memo_property DeviceUuid).
    rewrite memo_property_run. simpl memo_get. rewrite Hm. simpl.
    now rewrite (lookup_absent _ _ _ _ Ha). }
  destruct (write_emitted state self w VNone Hc Hu) as (_ & Hs & _).
  rewrite Hs. apply write_calls_start.
Qed.

Lemma change_state_without_uuid_witness :
  hd_error (service_calls
              (emitted (@Switch.turn_on scalar_builtins)
                       (Switch.__init__ "plug1", service anonymous_plug_snapshot 200))) =
  Some (HttpGet "https://api.toon.eu/toon/v3/1/devices/None"
                [("Authorization", "Bearer token")]).
Proof.
  exact (@change_state_without_uuid scalar_builtins (VInt 1) (Switch.__init__ "plug1")
           (service anonymous_plug_snapshot 200) eq_refl eq_refl eq_refl).
Defined.
